(** * Morpho protocol integration: [getVaultList] and [deposit]

    A shallow embedding of the two client functions of the package
    (the GraphQL vault query and the [supply] contract call) together
    with the properties their specification states about them.

    JavaScript values are modelled as far as the two functions observe
    them: what is thrown and caught, the truthiness tested by [||] and
    [!], the text produced by [JSON.stringify] on the GraphQL errors and
    the external calls each function awaits, in order. *)

From Stdlib Require Import ZArith Ascii String List Bool Lia.
From Stdlib Require Import Floats.SpecFloat.
From stdpp Require Import base option strings gmap.

Local Open Scope string_scope.

(* ===================================================================== *)
(** ** JavaScript values, exceptions and strings *)
(* ===================================================================== *)

Module Js.

(** A JavaScript [number] is an IEEE-754 double. *)
Definition number : Type := spec_float.

(** Integer-valued doubles written [m * 2^0]. *)
Definition number_of_Z (z : Z) : number :=
  match z with
  | Z0 => S754_zero false
  | Zpos p => S754_finite false p 0
  | Zneg p => S754_finite true p 0
  end.

(** The values an untyped expression can evaluate to.  A [BigNumber]
    is the ethers.js arbitrary-precision integer object; any other
    object is identified by its reference. *)
Inductive value : Type :=
| Undefined
| Null
| Boolean (b : bool)
| Number (n : number)
| Str (s : string)
| BigInt (z : Z)
| BigNumber (z : Z)
| Object (ref : positive).

(** [ToBoolean]: the falsy values are [undefined], [null], [false],
    [+0], [-0], [NaN], the empty string and [0n]; every object is
    truthy, a [BigNumber] of value zero included. *)
Definition truthy (v : value) : bool :=
  match v with
  | Undefined | Null => false
  | Boolean b => b
  | Number (S754_zero _) | Number S754_nan => false
  | Number _ => true
  | Str EmptyString => false
  | Str _ => true
  | BigInt z => negb (Z.eqb z 0)
  | BigNumber _ | Object _ => true
  end.

(** [a || b] on already evaluated operands. *)
Definition or_else (a b : value) : value := if truthy a then a else b.

(** Truthiness of an optional string property ([undefined] when the
    property is absent). *)
Definition truthy_string (o : option string) : bool :=
  match o with
  | Some (String _ _) => true
  | Some EmptyString | None => false
  end.

(** What a [catch] clause receives.  The functions only ask whether
    the caught value is an [Error] instance, read its [message] when it
    is, and apply [String] to it when it is not: a value that is not an
    [Error] is represented by the text [String] yields for it. *)
Inductive thrown : Type :=
| Error (message : string)
| NonError (rendering : string).

(** [error instanceof Error ? error.message : String(error)] *)
Definition cause_text (error : thrown) : string :=
  match error with
  | Error message => message
  | NonError rendering => rendering
  end.

(** The settled state of an awaited promise. *)
Inductive outcome (A : Type) : Type :=
| Resolved (a : A)
| Rejected (e : thrown).
Arguments Resolved {A} a.
Arguments Rejected {A} e.

(** *** [String.prototype.includes] *)

Fixpoint starts_with (needle hay : string) : bool :=
  match needle, hay with
  | EmptyString, _ => true
  | String _ _, EmptyString => false
  | String a n', String b h' => Ascii.eqb a b && starts_with n' h'
  end.

Fixpoint includes (needle hay : string) : bool :=
  starts_with needle hay ||
  match hay with
  | EmptyString => false
  | String _ h' => includes needle h'
  end.

(** *** [JSON.stringify] on strings

    Strings are sequences of bytes holding the text in UTF-8, an
    unpaired surrogate being held as the three bytes of its own code
    point ([ED], then [A0]..[BF], then a continuation byte).
    [JSON.stringify] escapes the double quote, the backslash, the code
    units below U+0020 and the unpaired surrogates; everything else is
    copied. *)

Definition dquote : ascii := ascii_of_nat 34.
Definition backslash : ascii := ascii_of_nat 92.

Definition hex_digit (n : nat) : ascii :=
  if Nat.ltb n 10 then ascii_of_nat (48 + n) else ascii_of_nat (87 + n).

Definition needs_escape (c : ascii) : bool :=
  Nat.ltb (nat_of_ascii c) 32 || Ascii.eqb c dquote || Ascii.eqb c backslash.

Definition escape_char (c : ascii) : string :=
  let n := nat_of_ascii c in
  if Ascii.eqb c dquote then String backslash (String dquote EmptyString)
  else if Ascii.eqb c backslash then String backslash (String backslash EmptyString)
  else if Nat.eqb n 8 then String backslash "b"
  else if Nat.eqb n 12 then String backslash "f"
  else if Nat.eqb n 10 then String backslash "n"
  else if Nat.eqb n 13 then String backslash "r"
  else if Nat.eqb n 9 then String backslash "t"
  else if Nat.ltb n 32 then
    String backslash
      ("u00" +:+ String (hex_digit (n / 16)) (String (hex_digit (n mod 16)) EmptyString))
  else String c EmptyString.

(** Whether three bytes hold a surrogate code point, U+D800 to U+DFFF. *)
Definition is_surrogate (c1 c2 c3 : ascii) : bool :=
  Nat.eqb (nat_of_ascii c1) 237
  && Nat.leb 160 (nat_of_ascii c2) && Nat.leb (nat_of_ascii c2) 191
  && Nat.leb 128 (nat_of_ascii c3) && Nat.leb (nat_of_ascii c3) 191.

(** Whether the string starts with an unpaired surrogate. *)
Definition surrogate_at (s : string) : bool :=
  match s with
  | String c1 (String c2 (String c3 _)) => is_surrogate c1 c2 c3
  | _ => false
  end.

(** The escape of the surrogate held in [ED c2 c3]: a backslash, [u] and
    the four lowercase hexadecimal digits of the code unit. *)
Definition escape_surrogate (c2 c3 : ascii) : string :=
  let code := 13 * 4096 + (nat_of_ascii c2 - 128) * 64 + (nat_of_ascii c3 - 128) in
  String backslash
    ("u" +:+ String (hex_digit (code / 4096))
               (String (hex_digit ((code / 256) mod 16))
                  (String (hex_digit ((code / 16) mod 16))
                     (String (hex_digit (code mod 16)) EmptyString)))).

Fixpoint escape (s : string) : string :=
  match s with
  | EmptyString => EmptyString
  | String c1 s1 =>
      match s1 with
      | String c2 (String c3 s3) =>
          if is_surrogate c1 c2 c3
          then escape_surrogate c2 c3 +:+ escape s3
          else escape_char c1 +:+ escape s1
      | _ => escape_char c1 +:+ escape s1
      end
  end.

Definition quote (s : string) : string :=
  String dquote (escape s +:+ String dquote EmptyString).

(** Text that [JSON.stringify] copies as it stands. *)
Fixpoint plain (s : string) : bool :=
  match s with
  | EmptyString => true
  | String c s' => negb (needs_escape c) && negb (surrogate_at s) && plain s'
  end.

(** *** [JSON.stringify] on decoded JSON

    The values a decoded JSON text is made of.  A number is kept as the
    text [JSON.stringify] writes for it; an object is the list of its own
    properties in the order they are enumerated. *)
#[warnings="-register-all"]
Inductive json : Type :=
| json_null
| json_boolean (b : bool)
| json_number (rendering : string)
| json_string (s : string)
| json_array (elements : list json)
| json_object (properties : list (string * json)).

Fixpoint join (separator : string) (parts : list string) : string :=
  match parts with
  | [] => EmptyString
  | [part] => part
  | part :: parts' => part +:+ separator +:+ join separator parts'
  end.

Fixpoint stringify (j : json) : string :=
  match j with
  | json_null => "null"
  | json_boolean true => "true"
  | json_boolean false => "false"
  | json_number rendering => rendering
  | json_string s => quote s
  | json_array elements => "[" +:+ join "," (List.map stringify elements) +:+ "]"
  | json_object properties =>
      "{" +:+ join ","
                (List.map (fun property =>
                             quote (fst property) +:+ ":" +:+ stringify (snd property))
                          properties)
          +:+ "}"
  end.

End Js.

(* ===================================================================== *)
(** ** Asynchronous functions and the external calls they await *)
(* ===================================================================== *)

(** An [async] function is run against collaborators whose answers are
    given; what remains of a run is the sequence of external calls it
    awaited, in order, and how its promise settled. *)
Module Async.
Import Js.

Definition t (E A : Type) : Type := (list E * outcome A)%type.

Section Ops.
Context {E : Type}.

Definition ret {A} (a : A) : t E A := ([], Resolved a).

Definition throw {A} (e : thrown) : t E A := ([], Rejected e).

(** [await] of an external call [c] that settles as [o]. *)
Definition await {A} (c : E) (o : outcome A) : t E A := ([c], o).

Definition bind {A B} (m : t E A) (k : A -> t E B) : t E B :=
  match m with
  | (l, Resolved a) => let '(l', r) := k a in ((l ++ l')%list, r)
  | (l, Rejected e) => (l, Rejected e)
  end.

(** [try { m } catch (error) { h error }] *)
Definition try_catch {A} (m : t E A) (h : thrown -> t E A) : t E A :=
  match m with
  | (l, Rejected e) => let '(l', r) := h e in ((l ++ l')%list, r)
  | (l, Resolved a) => (l, Resolved a)
  end.

Definition calls {A} (m : t E A) : list E := fst m.
Definition settled {A} (m : t E A) : outcome A := snd m.
End Ops.

Module Notations.
Notation "x <- m ;; k" := (bind m (fun x => k))
  (at level 100, m at level 99, right associativity).
Notation "m ;;; k" := (bind m (fun _ => k))
  (at level 100, right associativity).
End Notations.

End Async.

(* ===================================================================== *)
(** ** [getVaultList] *)
(* ===================================================================== *)

Module VaultAsset.
Record t := { address : string; name : string; symbol : string; decimals : Js.number }.
End VaultAsset.

Module DailyApy.
Record t := { apy : Js.number }.
End DailyApy.

Module VaultWarning.
Record t := { level : string }.
End VaultWarning.

Module VaultLiquidity.
Record t := { underlying : Js.number; usd : Js.number }.
End VaultLiquidity.

Module VaultChain.
Record t := { id : Js.number; network : string; currency : string }.
End VaultChain.

Module VaultItem.
Record t := {
  address : string;
  name : string;
  symbol : string;
  whitelisted : bool;
  asset : VaultAsset.t;
  dailyApys : list DailyApy.t;
  warnings : list VaultWarning.t;
  liquidity : VaultLiquidity.t;
  chain : VaultChain.t
}.
End VaultItem.

Module VaultResponseData.
Record vaults_t := { items : list VaultItem.t }.
Record t := { vaults : vaults_t }.
End VaultResponseData.

Module GraphQLError.
(** [message: string], and whatever else the decoded error object
    carries ("extensions, path, etc."): its own properties enumerated
    before [message] and those enumerated after it. *)
Record t := {
  leading : list (string * Js.json);
  message : string;
  trailing : list (string * Js.json)
}.

(** The own properties of the object, in enumeration order. *)
Definition properties (e : t) : list (string * Js.json) :=
  (leading e ++ ("message", Js.json_string (message e)) :: trailing e)%list.
End GraphQLError.

Module GraphQLResponse.
(** [data?: T; errors?: GraphQLError[]], the decoded body taken at its
    declared type: an optional field that is present holds an object or
    an array, which is truthy. *)
Record t := {
  data : option VaultResponseData.t;
  errors : option (list GraphQLError.t)
}.
End GraphQLResponse.

(** The part of axios the function uses. *)
Module Axios.
Record variables := { first : Js.number; skip : Js.number }.
Record body := { query : string; variables_of : variables }.
Record config := { headers : list (string * string) }.

(** A fulfilled request: the HTTP status and the decoded JSON body. *)
Record response := { status : Z; data : GraphQLResponse.t }.

(** [axios.post(url, body, config)]; a transport failure or a status
    outside 2xx is a rejection. *)
Definition post_t : Type := string -> body -> config -> Js.outcome response.

Inductive call := Post (url : string) (b : body) (c : config).
End Axios.

Module VaultList.
Import Js Async Async.Notations.

Definition DEFAULT_GRAPHQL_URL : string := "https://blue-api.morpho.org/graphql".

Definition VAULTS_QUERY : string := "
  query FetchVaults($first: Int!, $skip: Int!) {
    vaults(first: $first, skip: $skip) {
      items {
        address
        name
        symbol
        whitelisted
        asset {
          address
          name
          symbol
          decimals
        }
        dailyApys {
          apy
        }
        warnings {
          level
        }
        liquidity {
          underlying
          usd
        }
        chain {
          id
          network
          currency
        }
      }
    }
  }
".

(** [JSON.stringify] of a [GraphQLError[]]. *)
Definition stringify_error (e : GraphQLError.t) : string :=
  stringify (json_object (GraphQLError.properties e)).

Fixpoint stringify_tail (es : list GraphQLError.t) : string :=
  match es with
  | [] => "]"
  | e :: es' => "," +:+ stringify_error e +:+ stringify_tail es'
  end.

Definition stringify_errors (es : list GraphQLError.t) : string :=
  match es with
  | [] => "[]"
  | e :: es' => "[" +:+ stringify_error e +:+ stringify_tail es'
  end.

(** [response.data.errors && response.data.errors.length > 0] *)
Definition has_errors (r : GraphQLResponse.t) : bool :=
  match GraphQLResponse.errors r with
  | Some es => Nat.ltb 0 (length es)
  | None => false
  end.

(** The message of the [TypeError] raised on reading property [p] of
    [undefined] (the package requires Node 18 or later). *)
Definition cannot_read (p : string) : string :=
  "Cannot read properties of undefined (reading '" +:+ p +:+ "')".

Section WithEnvironment.
(** [process.env] and the axios instance. *)
Variable env : gmap string string.
Variable post : Axios.post_t.

(** [process.env.MORPHO_GRAPHQL_URL || "https://blue-api.morpho.org/graphql"] *)
Definition GRAPHQL_URL : string :=
  if truthy_string (env !! "MORPHO_GRAPHQL_URL")
  then default DEFAULT_GRAPHQL_URL (env !! "MORPHO_GRAPHQL_URL")
  else DEFAULT_GRAPHQL_URL.

Definition request_body (first skip : number) : Axios.body :=
  {| Axios.query := VAULTS_QUERY;
     Axios.variables_of := {| Axios.first := first; Axios.skip := skip |} |}.

Definition request_config : Axios.config :=
  {| Axios.headers := [("Content-Type", "application/json")] |}.

Definition fetch (first skip : number) : Async.t Axios.call Axios.response :=
  await (Axios.Post GRAPHQL_URL (request_body first skip) request_config)
        (post GRAPHQL_URL (request_body first skip) request_config).

(** The request made for [(first, skip)], an omitted argument being
    [None], and what the endpoint answers to it. *)
Definition request (first skip : option number) : Axios.call :=
  Axios.Post GRAPHQL_URL
    (request_body (default (number_of_Z 1000) first) (default (number_of_Z 0) skip))
    request_config.

Definition reply (first skip : option number) : outcome Axios.response :=
  post GRAPHQL_URL
    (request_body (default (number_of_Z 1000) first) (default (number_of_Z 0) skip))
    request_config.

(** [src/functions/getVaultList.ts]; an omitted argument is [None]. *)
Definition getVaultList (first skip : option number)
  : Async.t Axios.call (list VaultItem.t) :=
  let first := default (number_of_Z 1000) first in
  let skip := default (number_of_Z 0) skip in
  try_catch
    (response <- fetch first skip ;;
     (if has_errors (Axios.data response)
      then throw (Error ("GraphQL errors: " +:+
             stringify_errors (default [] (GraphQLResponse.errors (Axios.data response)))))
      else ret tt) ;;;
     (if GraphQLResponse.data (Axios.data response) is Some _
      then ret tt
      else throw (Error "No data returned from the GraphQL API")) ;;;
     match GraphQLResponse.data (Axios.data response) with
     | Some d => ret (VaultResponseData.items (VaultResponseData.vaults d))
     | None => throw (Error (cannot_read "vaults"))
     end)
    (fun error => throw (Error ("Failed to fetch vault list: " +:+ cause_text error))).
End WithEnvironment.

End VaultList.

(** The second copy of [getVaultList.ts] in the repository (the one
    headed [@module getVaultList]): the same request and the same check
    of [errors], but no check that [data] exists before
    [response.data.data.vaults.items] is read. *)
Module VaultListDraft.
Import Js Async Async.Notations.

Section WithEnvironment.
Variable env : gmap string string.
Variable post : Axios.post_t.

Definition getVaultList (first skip : option number)
  : Async.t Axios.call (list VaultItem.t) :=
  let first := default (number_of_Z 1000) first in
  let skip := default (number_of_Z 0) skip in
  try_catch
    (response <- VaultList.fetch env post first skip ;;
     (if VaultList.has_errors (Axios.data response)
      then throw (Error ("GraphQL errors: " +:+
             VaultList.stringify_errors
               (default [] (GraphQLResponse.errors (Axios.data response)))))
      else ret tt) ;;;
     match GraphQLResponse.data (Axios.data response) with
     | Some d => ret (VaultResponseData.items (VaultResponseData.vaults d))
     | None => throw (Error (VaultList.cannot_read "vaults"))
     end)
    (fun error => throw (Error ("Failed to fetch vault list: " +:+ cause_text error))).
End WithEnvironment.

End VaultListDraft.

(* ===================================================================== *)
(** ** [deposit] *)
(* ===================================================================== *)

Module MarketParamsInput.
Record t := {
  loanToken : string;
  collateralToken : string;
  oracle : string;
  irm : string;
  lltv : Z;
  id : string
}.
End MarketParamsInput.

Module DepositOptions.
Record t := {
  marketParams : MarketParamsInput.t;
  depositAmount : Z;
  onBehalf : option string
}.
End DepositOptions.

Module DepositResult.
(** [shares] is declared a [BigNumber]; what is stored there is whatever
    the untyped expression [receipt.events?.[0]?.args?.shares || shares]
    evaluates to. *)
Record t := { assets : Z; shares : Js.value }.
End DepositResult.

(** The part of ethers.js the function uses. *)
Module Ethers.
(** [Event.args?: Result]: the decoded arguments by name. *)
Record Event := { args : option (gmap string Js.value) }.

(** [ContractReceipt.events?: Event[]] *)
Record ContractReceipt := { events : option (list Event) }.

(** [ContractTransaction]: how [wait()] settles. *)
Record ContractTransaction := { wait : Js.outcome ContractReceipt }.

(** Modelled from the spec: the interface description
    [../abis/Morpho.json], which is not part of the sources; it declares
    the entry point [supply(marketParams, assets, shares, onBehalf, data)].
    A call of that entry point, arguments in the order they are passed: *)
Inductive contract_call :=
| supply (marketParams : MarketParamsInput.t) (assets shares : Z)
         (onBehalf : string) (data : string).

Record TransactionRequest := { to : string; call_of : contract_call }.

(** The signing capability as [deposit] meets it: how its [getAddress]
    settles, and how the submission of a request through the contract
    object settles ([OnEthers] below spells out what ethers does between
    the method call and the signer's own [sendTransaction]). *)
Record Signer := {
  getAddress : Js.outcome string;
  sendTransaction : TransactionRequest -> Js.outcome ContractTransaction
}.

(** [new ethers.Contract(address, abi, signer)]: the object binding the
    three, built without any call to the signer ([OnEthers] has the case
    in which the constructor throws). *)
Record Contract := { address : string; signer : Signer }.

(** A method call on the contract, as [deposit] sees it settle: the
    submission of the request through the signer. *)
Definition invoke (c : Contract) (f : contract_call) : Js.outcome ContractTransaction :=
  sendTransaction (signer c) {| to := address c; call_of := f |}.

(** The external calls [deposit] can await. *)
Inductive call :=
| GetAddress
| Send (r : TransactionRequest)
| Wait.

(** [BytesLike] hexadecimal strings: ["0x"] followed by two digits per
    byte, as [utils.arrayify] reads them. *)
Definition hex_value (c : ascii) : option N :=
  let n := N_of_ascii c in
  if (48 <=? n)%N && (n <=? 57)%N then Some (n - 48)%N
  else if (97 <=? n)%N && (n <=? 102)%N then Some (n - 87)%N
  else if (65 <=? n)%N && (n <=? 70)%N then Some (n - 55)%N
  else None.

Fixpoint hex_pairs (s : string) : option (list N) :=
  match s with
  | EmptyString => Some []
  | String hi (String lo rest) =>
      match hex_value hi, hex_value lo, hex_pairs rest with
      | Some h, Some l, Some bs => Some ((16 * h + l)%N :: bs)
      | _, _, _ => None
      end
  | String _ EmptyString => None
  end.

Definition arrayify (s : string) : option (list N) :=
  match s with
  | String "0" (String "x" rest) => hex_pairs rest
  | _ => None
  end.
End Ethers.

Module Deposit.
Import Js Async Async.Notations.

Definition DEFAULT_MORPHO_CONTRACT_ADDRESS : string :=
  "0xBBBBBbbBBb9cC5e90e3b3Af64bdAF62C37EEFFCb".

(** [receipt.events?.[0]?.args?.shares] *)
Definition first_event_shares (receipt : Ethers.ContractReceipt) : value :=
  match Ethers.events receipt with
  | None => Undefined
  | Some events =>
      match events !! 0%nat with
      | None => Undefined
      | Some event =>
          match Ethers.args event with
          | None => Undefined
          | Some args => default Undefined (args !! "shares")
          end
      end
  end.

Section WithEnvironment.
(** [process.env] *)
Variable env : gmap string string.

(** [process.env.MORPHO_CONTRACT_ADDRESS || "0xBBBB...FFCb"] *)
Definition MORPHO_CONTRACT_ADDRESS : string :=
  if truthy_string (env !! "MORPHO_CONTRACT_ADDRESS")
  then default DEFAULT_MORPHO_CONTRACT_ADDRESS (env !! "MORPHO_CONTRACT_ADDRESS")
  else DEFAULT_MORPHO_CONTRACT_ADDRESS.

Definition deposit (options : DepositOptions.t) (signer : Ethers.Signer)
  : Async.t Ethers.call DepositResult.t :=
  let morphoContract :=
    {| Ethers.address := MORPHO_CONTRACT_ADDRESS; Ethers.signer := signer |} in
  onBehalfAddress <-
    (if truthy_string (DepositOptions.onBehalf options)
     then ret (default EmptyString (DepositOptions.onBehalf options))
     else await Ethers.GetAddress (Ethers.getAddress signer)) ;;
  let assets := DepositOptions.depositAmount options in
  let shares := 0%Z in
  let data := "0x" in
  try_catch
    (let f := Ethers.supply (DepositOptions.marketParams options)
                assets shares onBehalfAddress data in
     txResponse <-
       await (Ethers.Send {| Ethers.to := Ethers.address morphoContract;
                             Ethers.call_of := f |})
             (Ethers.invoke morphoContract f) ;;
     receipt <- await Ethers.Wait (Ethers.wait txResponse) ;;
     ret {| DepositResult.assets := assets;
            DepositResult.shares :=
              or_else (first_event_shares receipt) (BigNumber shares) |})
    (fun error => throw (Error ("Deposit failed: " +:+ cause_text error))).

(** The transaction request a deposit on behalf of [onBehalfAddress]
    amounts to: [supply(marketParams, assets, shares, onBehalf, data)]
    sent to the Morpho contract. *)
Definition submitted (options : DepositOptions.t) (onBehalfAddress : string)
  : Ethers.TransactionRequest :=
  {| Ethers.to := MORPHO_CONTRACT_ADDRESS;
     Ethers.call_of :=
       Ethers.supply (DepositOptions.marketParams options)
         (DepositOptions.depositAmount options) 0 onBehalfAddress "0x" |}.
End WithEnvironment.

(** How [options.onBehalf || (await signer.getAddress())] comes to a
    value: the calls awaited on the way and the address obtained. *)
Inductive onBehalf_resolved (options : DepositOptions.t) (signer : Ethers.Signer)
  : list Ethers.call -> string -> Prop :=
| onBehalf_given (a : string) :
    DepositOptions.onBehalf options = Some a ->
    a <> EmptyString ->
    onBehalf_resolved options signer [] a
| onBehalf_of_signer (a : string) :
    truthy_string (DepositOptions.onBehalf options) = false ->
    Ethers.getAddress signer = Resolved a ->
    onBehalf_resolved options signer [Ethers.GetAddress] a.

End Deposit.

(* ===================================================================== *)
(** ** [deposit] on ethers.js *)
(* ===================================================================== *)

(** What lies between the two lines of [deposit] that use the library,
    [new ethers.Contract(...)] and [morphoContract.supply(...)], and the
    signer.  ethers.js is not part of the sources; this follows its
    version 5: the constructor throws on a contract address that is not
    a valid hexadecimal address when the signer has no provider, and a
    method call on a contract with a signer first asks the signer for its
    address to fill [from], resolves the address arguments and encodes the
    call, and then hands the request to the signer's [sendTransaction]. *)
Module OnEthers.
Import Js Async Async.Notations.

Record Wallet := {
  (** what [new ethers.Contract(address, MorphoABI, signer)] throws, if
      anything *)
  construct : string -> option thrown;
  (** [signer.getAddress()], each time it is asked *)
  getAddress : outcome string;
  (** what resolving the address arguments and encoding the call raise,
      if anything *)
  encode : Ethers.TransactionRequest -> option thrown;
  (** the address request and the encoding proceed together: which of
      the two failures is seen when both fail *)
  address_fails_first : bool;
  (** [signer.sendTransaction(request)] *)
  sendTransaction : Ethers.TransactionRequest -> outcome Ethers.ContractTransaction
}.

(** What the preparation of a request fails with, if it fails. *)
Definition prepared (w : Wallet) (r : Ethers.TransactionRequest) : option thrown :=
  match getAddress w, encode w r with
  | Resolved _, None => None
  | Rejected e, None => Some e
  | Resolved _, Some e' => Some e'
  | Rejected e, Some e' => Some (if address_fails_first w then e else e')
  end.

(** A method call on the contract: the signer is asked for its address
    in every case, and for the transaction when the preparation went
    through.  [Ethers.Send] stands here for the signer's own
    [sendTransaction]. *)
Definition method_call (w : Wallet) (r : Ethers.TransactionRequest)
  : Async.t Ethers.call Ethers.ContractTransaction :=
  await Ethers.GetAddress
    (match prepared w r with
     | Some e => Rejected e
     | None => Resolved tt
     end) ;;;
  await (Ethers.Send r) (sendTransaction w r).

Section WithEnvironment.
Variable env : gmap string string.

(** [deposit], line by line, over the wallet. *)
Definition deposit (options : DepositOptions.t) (w : Wallet)
  : Async.t Ethers.call DepositResult.t :=
  match construct w (Deposit.MORPHO_CONTRACT_ADDRESS env) with
  | Some thrown_by_constructor => throw thrown_by_constructor
  | None =>
      onBehalfAddress <-
        (if truthy_string (DepositOptions.onBehalf options)
         then ret (default EmptyString (DepositOptions.onBehalf options))
         else await Ethers.GetAddress (getAddress w)) ;;
      let assets := DepositOptions.depositAmount options in
      let shares := 0%Z in
      let data := "0x" in
      try_catch
        (txResponse <-
           method_call w
             {| Ethers.to := Deposit.MORPHO_CONTRACT_ADDRESS env;
                Ethers.call_of :=
                  Ethers.supply (DepositOptions.marketParams options)
                    assets shares onBehalfAddress data |} ;;
         receipt <- await Ethers.Wait (Ethers.wait txResponse) ;;
         ret {| DepositResult.assets := assets;
                DepositResult.shares :=
                  or_else (Deposit.first_event_shares receipt) (BigNumber shares) |})
        (fun error => throw (Error ("Deposit failed: " +:+ cause_text error)))
  end.
End WithEnvironment.

(** The wallet seen through the contract object: the signer [deposit]
    is given, a submission being the whole method call. *)
Definition through_contract (w : Wallet) : Ethers.Signer :=
  {| Ethers.getAddress := getAddress w;
     Ethers.sendTransaction := fun r => settled (method_call w r) |}.

End OnEthers.

(* ===================================================================== *)
(** ** Sample inputs *)
(* ===================================================================== *)

Module Samples.
Import Js.

(** The vault of [tests/client.test.ts]. *)
Definition vault_one : VaultItem.t :=
  {| VaultItem.address := "0xVaultAddress1";
     VaultItem.name := "Vault One";
     VaultItem.symbol := "VLT1";
     VaultItem.whitelisted := true;
     VaultItem.asset :=
       {| VaultAsset.address := "0xAssetAddress1";
          VaultAsset.name := "Asset One";
          VaultAsset.symbol := "AST1";
          VaultAsset.decimals := number_of_Z 18 |};
     VaultItem.dailyApys := [ {| DailyApy.apy := number_of_Z 123 |} ];
     VaultItem.warnings := [ {| VaultWarning.level := "low" |} ];
     VaultItem.liquidity :=
       {| VaultLiquidity.underlying := number_of_Z 100;
          VaultLiquidity.usd := number_of_Z 1000 |};
     VaultItem.chain :=
       {| VaultChain.id := number_of_Z 1;
          VaultChain.network := "Ethereum";
          VaultChain.currency := "ETH" |} |}.

Definition vault_two : VaultItem.t :=
  {| VaultItem.address := "0xVaultAddress2";
     VaultItem.name := "Vault Two";
     VaultItem.symbol := "VLT2";
     VaultItem.whitelisted := false;
     VaultItem.asset := VaultItem.asset vault_one;
     VaultItem.dailyApys := [];
     VaultItem.warnings := [];
     VaultItem.liquidity := VaultItem.liquidity vault_one;
     VaultItem.chain := VaultItem.chain vault_one |}.

Definition vault_data (items : list VaultItem.t) : VaultResponseData.t :=
  {| VaultResponseData.vaults := {| VaultResponseData.items := items |} |}.

(** HTTP 200 with the given JSON body. *)
Definition ok (data : option VaultResponseData.t)
    (errors : option (list GraphQLError.t)) : Axios.response :=
  {| Axios.status := 200;
     Axios.data := {| GraphQLResponse.data := data; GraphQLResponse.errors := errors |} |}.

(** An endpoint that answers every request with [r]. *)
Definition answering (r : Axios.response) : Axios.post_t :=
  fun _ _ _ => Resolved r.

Definition something_went_wrong : GraphQLError.t :=
  {| GraphQLError.leading := [];
     GraphQLError.message := "Something went wrong";
     GraphQLError.trailing := [] |}.

(** [Cannot query field "apy"], the double quotes being part of the text. *)
Definition cannot_query_field : GraphQLError.t :=
  {| GraphQLError.leading := [];
     GraphQLError.message :=
       "Cannot query field " +:+ String dquote ("apy" +:+ String dquote EmptyString);
     GraphQLError.trailing := [] |}.

Definition hundred : number := number_of_Z 100.
Definition zero : number := number_of_Z 0.

(** Deposit: 50 units of a 6-decimals token. *)
Definition market : MarketParamsInput.t :=
  {| MarketParamsInput.loanToken := "0xTokenAddress";
     MarketParamsInput.collateralToken := "0xCollateralTokenAddress";
     MarketParamsInput.oracle := "0xOracleAddress";
     MarketParamsInput.irm := "0xIrmAddress";
     MarketParamsInput.lltv := 900000000000000000;
     MarketParamsInput.id := "0xComputedMarketId" |}.

Definition options (onBehalf : option string) : DepositOptions.t :=
  {| DepositOptions.marketParams := market;
     DepositOptions.depositAmount := 50000000;
     DepositOptions.onBehalf := onBehalf |}.

Definition receipt_with (shares : Js.value) : Ethers.ContractReceipt :=
  {| Ethers.events := Some [ {| Ethers.args := Some {[ "shares" := shares ]} |} ] |}.

Definition receipt_without_events : Ethers.ContractReceipt :=
  {| Ethers.events := Some [] |}.

(** A signer whose address is [0xSigner] (or who fails to give one) and
    whose transactions are mined with the given receipt. *)
Definition signer_with (address : outcome string) (receipt : outcome Ethers.ContractReceipt)
  : Ethers.Signer :=
  {| Ethers.getAddress := address;
     Ethers.sendTransaction := fun _ => Resolved {| Ethers.wait := receipt |} |}.

Definition signer_mining (receipt : Ethers.ContractReceipt) : Ethers.Signer :=
  signer_with (Resolved "0xSigner") (Resolved receipt).

(** A signer that cannot tell its address. *)
Definition signer_without_account : Ethers.Signer :=
  signer_with (Rejected (Error "unknown account #0")) (Resolved receipt_without_events).

(** A signer whose node refuses the transaction. *)
Definition signer_refused : Ethers.Signer :=
  {| Ethers.getAddress := Resolved "0xSigner";
     Ethers.sendTransaction := fun _ => Rejected (Error "insufficient funds") |}.

(** A signer whose transaction is sent but whose confirmation fails. *)
Definition signer_reverted : Ethers.Signer :=
  signer_with (Resolved "0xSigner") (Rejected (Error "transaction failed")).

(** A wallet with a provider and the address [0xSigner], for which every
    argument encodes, and whose transactions are mined with [receipt]. *)
Definition wallet_mining (receipt : Ethers.ContractReceipt) : OnEthers.Wallet :=
  {| OnEthers.construct := fun _ => None;
     OnEthers.getAddress := Resolved "0xSigner";
     OnEthers.encode := fun _ => None;
     OnEthers.address_fails_first := true;
     OnEthers.sendTransaction := fun _ => Resolved {| Ethers.wait := Resolved receipt |} |}.

(** The same wallet without an account: it cannot tell its address. *)
Definition wallet_without_account : OnEthers.Wallet :=
  {| OnEthers.construct := fun _ => None;
     OnEthers.getAddress := Rejected (Error "unknown account #0");
     OnEthers.encode := fun _ => None;
     OnEthers.address_fails_first := true;
     OnEthers.sendTransaction :=
       fun _ => Resolved {| Ethers.wait := Resolved receipt_without_events |} |}.

(** A wallet without a provider, given a contract address that is not a
    hexadecimal address. *)
Definition wallet_without_provider : OnEthers.Wallet :=
  {| OnEthers.construct :=
       fun _ => Some (Error "provider is required to use ENS name as contract address");
     OnEthers.getAddress := Resolved "0xSigner";
     OnEthers.encode := fun _ => None;
     OnEthers.address_fails_first := true;
     OnEthers.sendTransaction :=
       fun _ => Resolved {| Ethers.wait := Resolved receipt_without_events |} |}.

(** A wallet for which the arguments of the call do not encode. *)
Definition wallet_rejecting_arguments : OnEthers.Wallet :=
  {| OnEthers.construct := fun _ => None;
     OnEthers.getAddress := Resolved "0xSigner";
     OnEthers.encode := fun _ => Some (Error "invalid address");
     OnEthers.address_fails_first := true;
     OnEthers.sendTransaction :=
       fun _ => Resolved {| Ethers.wait := Resolved receipt_without_events |} |}.

(** A wallet whose node refuses the transaction. *)
Definition wallet_refused : OnEthers.Wallet :=
  {| OnEthers.construct := fun _ => None;
     OnEthers.getAddress := Resolved "0xSigner";
     OnEthers.encode := fun _ => None;
     OnEthers.address_fails_first := true;
     OnEthers.sendTransaction := fun _ => Rejected (Error "insufficient funds") |}.

(** A string between double quotes. *)
Definition in_quotes (s : string) : string :=
  String dquote (s +:+ String dquote EmptyString).

(** An error as a GraphQL server sends it, with [locations], [path] and
    [extensions] after the message. *)
Definition located_error : GraphQLError.t :=
  {| GraphQLError.leading := [];
     GraphQLError.message := "Something went wrong";
     GraphQLError.trailing :=
       [ ("locations",
          json_array [ json_object [ ("line", json_number "2");
                                     ("column", json_number "3") ] ]);
         ("path", json_array [ json_string "vaults" ]);
         ("extensions",
          json_object [ ("code", json_string "INTERNAL_SERVER_ERROR") ]) ] |}.

(** The text of [JSON.stringify([located_error])]. *)
Definition located_error_text : string :=
  "[{" +:+ in_quotes "message" +:+ ":" +:+ in_quotes "Something went wrong" +:+ ","
  +:+ in_quotes "locations" +:+ ":[{" +:+ in_quotes "line" +:+ ":2,"
  +:+ in_quotes "column" +:+ ":3}],"
  +:+ in_quotes "path" +:+ ":[" +:+ in_quotes "vaults" +:+ "],"
  +:+ in_quotes "extensions" +:+ ":{" +:+ in_quotes "code" +:+ ":"
  +:+ in_quotes "INTERNAL_SERVER_ERROR" +:+ "}}]".

(** An error whose message holds an unpaired surrogate, U+D800. *)
Definition surrogate_error : GraphQLError.t :=
  {| GraphQLError.leading := [ ("path", json_null) ];
     GraphQLError.message :=
       "bad" +:+ String (ascii_of_nat 237)
                   (String (ascii_of_nat 160) (String (ascii_of_nat 128) EmptyString));
     GraphQLError.trailing := [] |}.
End Samples.

(* ===================================================================== *)
(** ** The test suite [tests/client.test.ts] *)
(* ===================================================================== *)

Module ClientTest.
Import Js Async.

Section WithEnvironment.
(** [process.env], read by the test file as by the module under test. *)
Variable env : gmap string string.

(** [process.env.MORPHO_GRAPHQL_URL || "https://blue-api.morpho.org/graphql"] *)
Definition GRAPHQL_URL : string :=
  if truthy_string (env !! "MORPHO_GRAPHQL_URL")
  then default "https://blue-api.morpho.org/graphql" (env !! "MORPHO_GRAPHQL_URL")
  else "https://blue-api.morpho.org/graphql".

(** [mock.onPost(url).reply(200, body)] on an adapter with no other
    handler: a POST to [url] is answered 200 with [body]; a request the
    adapter has no handler for is answered 404, which axios rejects. *)
Definition onPost_reply_200 (url : string) (body : GraphQLResponse.t) : Axios.post_t :=
  fun requested _ _ =>
    if String.eqb requested url
    then Resolved {| Axios.status := 200; Axios.data := body |}
    else Rejected (Error "Request failed with status code 404").

Definition sampleResponse : GraphQLResponse.t :=
  {| GraphQLResponse.data := Some (Samples.vault_data [Samples.vault_one]);
     GraphQLResponse.errors := None |}.

Definition sampleErrorResponse : GraphQLResponse.t :=
  {| GraphQLResponse.data := None;
     GraphQLResponse.errors :=
       Some [ {| GraphQLError.leading := [];
                 GraphQLError.message := "Something went wrong";
                 GraphQLError.trailing := [] |} ] |}.

(** [test("should successfully fetch vaults")]: whether its three
    expectations hold. *)
Definition should_successfully_fetch_vaults : bool :=
  match settled (VaultList.getVaultList env (onPost_reply_200 GRAPHQL_URL sampleResponse)
                   (Some (number_of_Z 100)) (Some (number_of_Z 0))) with
  | Resolved vaults =>
      Nat.eqb (length vaults) 1
      && match vaults !! 0%nat with
         | Some vault => String.eqb (VaultItem.name vault) "Vault One"
         | None => false
         end
  | Rejected _ => false
  end.

(** [test("should throw error on GraphQL error")]:
    [rejects.toThrow("Something went wrong")] holds when the promise
    rejects with an error whose message includes the text. *)
Definition should_throw_error_on_GraphQL_error : bool :=
  match settled (VaultList.getVaultList env (onPost_reply_200 GRAPHQL_URL sampleErrorResponse)
                   (Some (number_of_Z 100)) (Some (number_of_Z 0))) with
  | Rejected (Error message) => includes "Something went wrong" message
  | Rejected (NonError _) | Resolved _ => false
  end.
End WithEnvironment.

End ClientTest.

(* ===================================================================== *)
(** ** Properties of the string functions *)
(* ===================================================================== *)

Section StringFacts.
Import Js.

Lemma starts_with_append (n rest : string) : starts_with n (n +:+ rest) = true.
Proof.
  induction n as [|c n IH]; simpl; [reflexivity|].
  now rewrite Ascii.eqb_refl, IH.
Qed.

Lemma starts_with_includes (n h : string) :
  starts_with n h = true -> includes n h = true.
Proof. intros H. destruct h; simpl in *; now rewrite H. Qed.

Lemma includes_prepend (n pre h : string) :
  includes n h = true -> includes n (pre +:+ h) = true.
Proof.
  intros H. induction pre as [|c pre IH]; simpl; [exact H|].
  rewrite IH. apply orb_true_r.
Qed.

(** [needle] occurs in every string built around it. *)
Lemma includes_infix (n pre post : string) :
  includes n (pre +:+ n +:+ post) = true.
Proof.
  apply includes_prepend, starts_with_includes, starts_with_append.
Qed.

Lemma escape_char_plain (c : ascii) :
  needs_escape c = false -> escape_char c = String c EmptyString.
Proof.
  destruct c as [[] [] [] [] [] [] [] []]; vm_compute; intros H;
    first [reflexivity | discriminate H].
Qed.

Lemma escape_step (c : ascii) (s : string) :
  surrogate_at (String c s) = false ->
  escape (String c s) = escape_char c +:+ escape s.
Proof.
  destruct s as [|c2 [|c3 s3]]; try reflexivity.
  intros H. change (surrogate_at _) with (is_surrogate c c2 c3) in H.
  change (escape (String c (String c2 (String c3 s3))))
    with (if is_surrogate c c2 c3
          then escape_surrogate c2 c3 +:+ escape s3
          else escape_char c +:+ escape (String c2 (String c3 s3))).
  now rewrite H.
Qed.

(** Text without control characters, double quotes, backslashes and
    unpaired surrogates is serialised as it stands. *)
Lemma escape_plain (s : string) : plain s = true -> escape s = s.
Proof.
  induction s as [|c s IH]; [reflexivity|].
  intros H.
  change (plain (String c s))
    with (negb (needs_escape c) && negb (surrogate_at (String c s)) && plain s) in H.
  apply andb_true_iff in H as [H Hs].
  apply andb_true_iff in H as [Hc Hsur].
  apply negb_true_iff in Hc. apply negb_true_iff in Hsur.
  rewrite (escape_step c s Hsur), (escape_char_plain c Hc), (IH Hs). reflexivity.
Qed.

Lemma starts_with_extend (n h post : string) :
  starts_with n h = true -> starts_with n (h +:+ post) = true.
Proof.
  revert h. induction n as [|c n IH]; intros [|d h]; try easy.
  change (String d h +:+ post) with (String d (h +:+ post)).
  cbn. intros H. apply andb_true_iff in H as [Hc Hn].
  now rewrite Hc, (IH h Hn).
Qed.

Lemma includes_extend (n h post : string) :
  includes n h = true -> includes n (h +:+ post) = true.
Proof.
  induction h as [|d h IH]; intros H.
  - cbn in H. rewrite orb_false_r in H. destruct n; [|discriminate H].
    destruct post; reflexivity.
  - cbn in H. apply orb_true_iff in H as [H|H].
    + apply starts_with_includes, starts_with_extend, H.
    + change (String d h +:+ post) with (String d (h +:+ post)).
      cbn. rewrite (IH H). apply orb_true_r.
Qed.
End StringFacts.

(* ===================================================================== *)
(** ** Properties of [getVaultList] *)
(* ===================================================================== *)

Section VaultListFacts.
Import Js Async.

Variable env : gmap string string.

(** Every run awaits the one POST and settles according to its answer. *)
Lemma getVaultList_run (post : Axios.post_t) (first skip : option number) :
  VaultList.getVaultList env post first skip =
  ([VaultList.request env first skip],
   match VaultList.reply env post first skip with
   | Rejected e => Rejected (Error ("Failed to fetch vault list: " +:+ cause_text e))
   | Resolved r =>
       if VaultList.has_errors (Axios.data r)
       then Rejected (Error ("Failed to fetch vault list: " +:+ "GraphQL errors: " +:+
              VaultList.stringify_errors
                (default [] (GraphQLResponse.errors (Axios.data r)))))
       else match GraphQLResponse.data (Axios.data r) with
            | Some d => Resolved (VaultResponseData.items (VaultResponseData.vaults d))
            | None => Rejected (Error ("Failed to fetch vault list: " +:+
                        "No data returned from the GraphQL API"))
            end
   end).
Proof.
  unfold VaultList.getVaultList, VaultList.fetch, VaultList.reply, VaultList.request.
  destruct (post _ _ _) as [r|e]; cbn; [|reflexivity].
  destruct (VaultList.has_errors _); cbn; [reflexivity|].
  destruct (GraphQLResponse.data _); reflexivity.
Qed.

(** The draft differs in the last case only. *)
Lemma draft_getVaultList_run (post : Axios.post_t) (first skip : option number) :
  VaultListDraft.getVaultList env post first skip =
  ([VaultList.request env first skip],
   match VaultList.reply env post first skip with
   | Rejected e => Rejected (Error ("Failed to fetch vault list: " +:+ cause_text e))
   | Resolved r =>
       if VaultList.has_errors (Axios.data r)
       then Rejected (Error ("Failed to fetch vault list: " +:+ "GraphQL errors: " +:+
              VaultList.stringify_errors
                (default [] (GraphQLResponse.errors (Axios.data r)))))
       else match GraphQLResponse.data (Axios.data r) with
            | Some d => Resolved (VaultResponseData.items (VaultResponseData.vaults d))
            | None => Rejected (Error ("Failed to fetch vault list: " +:+ VaultList.cannot_read "vaults"))
            end
   end).
Proof.
  unfold VaultListDraft.getVaultList, VaultList.fetch, VaultList.reply, VaultList.request.
  destruct (post _ _ _) as [r|e]; cbn; [|reflexivity].
  destruct (VaultList.has_errors _); cbn; [reflexivity|].
  destruct (GraphQLResponse.data _); reflexivity.
Qed.

Lemma has_errors_empty (r : GraphQLResponse.t) :
  GraphQLResponse.errors r = None \/ GraphQLResponse.errors r = Some [] ->
  VaultList.has_errors r = false.
Proof. unfold VaultList.has_errors. now intros [-> | ->]. Qed.

Lemma has_errors_cons (r : GraphQLResponse.t) e es :
  GraphQLResponse.errors r = Some (e :: es) -> VaultList.has_errors r = true.
Proof. unfold VaultList.has_errors. now intros ->. Qed.

(** With no [data] and no errors reported, the function of
    [src/functions/getVaultList.ts] rejects with its own message. *)
Lemma getVaultList_no_data (post : Axios.post_t) (first skip : option number) r :
  VaultList.reply env post first skip = Resolved r ->
  VaultList.has_errors (Axios.data r) = false ->
  GraphQLResponse.data (Axios.data r) = None ->
  settled (VaultList.getVaultList env post first skip) =
  Rejected (Error "Failed to fetch vault list: No data returned from the GraphQL API").
Proof.
  intros Hr He Hd. rewrite getVaultList_run. unfold settled; cbn.
  now rewrite Hr, He, Hd.
Qed.

(** On the same answers the draft rejects with the engine's message for
    the failed property read. *)
Lemma draft_getVaultList_no_data (post : Axios.post_t) (first skip : option number) r :
  VaultList.reply env post first skip = Resolved r ->
  VaultList.has_errors (Axios.data r) = false ->
  GraphQLResponse.data (Axios.data r) = None ->
  settled (VaultListDraft.getVaultList env post first skip) =
  Rejected (Error
    "Failed to fetch vault list: Cannot read properties of undefined (reading 'vaults')").
Proof.
  intros Hr He Hd. rewrite draft_getVaultList_run. unfold settled; cbn.
  now rewrite Hr, He, Hd.
Qed.

(** The two copies run alike except on an answer that reports no error
    and has no [data]. *)
Lemma draft_getVaultList_agrees (post : Axios.post_t) (first skip : option number) :
  (forall r, VaultList.reply env post first skip = Resolved r ->
             VaultList.has_errors (Axios.data r) = false ->
             GraphQLResponse.data (Axios.data r) <> None) ->
  VaultListDraft.getVaultList env post first skip =
  VaultList.getVaultList env post first skip.
Proof.
  intros H. rewrite draft_getVaultList_run, getVaultList_run.
  destruct (VaultList.reply env post first skip) as [r|e] eqn:Hr; [|reflexivity].
  destruct (VaultList.has_errors (Axios.data r)) eqn:He; [reflexivity|].
  specialize (H r eq_refl He).
  destruct (GraphQLResponse.data (Axios.data r)); [reflexivity | congruence].
Qed.
End VaultListFacts.

(* ===================================================================== *)
(** ** The rejection message on GraphQL errors *)
(* ===================================================================== *)

Section VaultListErrors.
Import Js Async.

Lemma quote_includes (s : string) : includes (escape s) (quote s) = true.
Proof.
  unfold quote.
  change (String dquote (escape s +:+ String dquote EmptyString))
    with (String dquote EmptyString +:+ (escape s +:+ String dquote EmptyString)).
  apply includes_prepend, starts_with_includes, starts_with_append.
Qed.

Lemma includes_join (x part separator : string) (parts : list string) :
  In part parts -> includes x part = true ->
  includes x (join separator parts) = true.
Proof.
  intros Hin Hx. induction parts as [|p parts IH]; [destruct Hin|].
  destruct parts as [|q parts].
  - destruct Hin as [-> | []]. exact Hx.
  - change (join separator (p :: q :: parts))
      with (p +:+ separator +:+ join separator (q :: parts)).
    destruct Hin as [-> | Hin].
    + apply includes_extend, Hx.
    + do 2 apply includes_prepend. apply IH, Hin.
Qed.

Lemma stringify_object (properties : list (string * json)) :
  stringify (json_object properties) =
  "{" +:+ join ","
            (List.map (fun property =>
                         quote (fst property) +:+ ":" +:+ stringify (snd property))
                      properties)
      +:+ "}".
Proof. reflexivity. Qed.

(** The serialised error object shows its message in escaped form,
    whatever other properties it has. *)
Lemma stringify_error_includes (e : GraphQLError.t) :
  includes (escape (GraphQLError.message e)) (VaultList.stringify_error e) = true.
Proof.
  unfold VaultList.stringify_error. rewrite stringify_object.
  apply includes_prepend, includes_extend.
  apply (includes_join _
           (quote "message" +:+ ":" +:+ stringify (json_string (GraphQLError.message e)))).
  - apply (in_map (fun property =>
                     quote (fst property) +:+ ":" +:+ stringify (snd property))
             _ ("message", json_string (GraphQLError.message e))).
    unfold GraphQLError.properties. apply in_or_app. right. now left.
  - do 2 apply includes_prepend. apply quote_includes.
Qed.

(** The serialised array shows the first message in its escaped form. *)
Lemma stringify_errors_includes (e : GraphQLError.t) (es : list GraphQLError.t) :
  includes (escape (GraphQLError.message e)) (VaultList.stringify_errors (e :: es)) = true.
Proof.
  unfold VaultList.stringify_errors.
  apply includes_prepend, includes_extend, stringify_error_includes.
Qed.

Lemma getVaultList_errors_message (env : gmap string string) (post : Axios.post_t)
    (first skip : option number) r e es :
  VaultList.reply env post first skip = Resolved r ->
  GraphQLResponse.errors (Axios.data r) = Some (e :: es) ->
  settled (VaultList.getVaultList env post first skip) =
  Rejected (Error ("Failed to fetch vault list: " +:+ "GraphQL errors: " +:+
                   VaultList.stringify_errors (e :: es))).
Proof.
  intros Hr He. rewrite getVaultList_run. unfold settled. cbn [snd].
  rewrite Hr, (has_errors_cons _ _ _ He), He. reflexivity.
Qed.
End VaultListErrors.

(* ===================================================================== *)
(** ** What the specification states about [getVaultList] *)
(* ===================================================================== *)

Section VaultListClaims.
Import Js Async.

(** C2.  A body without [data] and without errors must be rejected with
    the "no data returned" message behind the fetch-failure prefix.
    Evaluated on HTTP 200 with the body [{}]: the draft copy, which has
    no check of [data], rejects with the message of the [TypeError]
    raised by reading [vaults] of [undefined], a text that does not
    mention missing data; [src/functions/getVaultList.ts] rejects with
    the message the claim asks for. *)
Theorem draft_getVaultList_missing_data_check :
  let post := Samples.answering (Samples.ok None None) in
  exists m,
    settled (VaultListDraft.getVaultList ∅ post (Some Samples.hundred) (Some Samples.zero))
      = Rejected (Error m)
    /\ m = "Failed to fetch vault list: Cannot read properties of undefined (reading 'vaults')"
    /\ includes "No data returned" m = false
    /\ settled (VaultList.getVaultList ∅ post (Some Samples.hundred) (Some Samples.zero))
      = Rejected (Error "Failed to fetch vault list: No data returned from the GraphQL API").
Proof. eexists. repeat split; vm_compute; reflexivity. Qed.

(** C5, as stated, fails: when the first error's message is
    [Cannot query field "apy"], the rejection message holds the text with
    its quotes escaped and does not include the text itself. *)
Lemma getVaultList_errors_text_not_included :
  exists m,
    settled (VaultList.getVaultList ∅
               (Samples.answering (Samples.ok None (Some [Samples.cannot_query_field])))
               (Some Samples.hundred) (Some Samples.zero)) = Rejected (Error m)
    /\ includes (GraphQLError.message Samples.cannot_query_field) m = false.
Proof. eexists. split; vm_compute; reflexivity. Qed.

(** C5, amended.  Whenever the answer carries a non-empty [errors] array,
    whatever its HTTP status and its [data], the call rejects with the
    fetch-failure prefix, the words "GraphQL errors: " and the JSON
    serialisation of the array, every property of every error object
    included; the message therefore includes the first error's text in
    its JSON-escaped form, and the text itself when it has no double
    quote, backslash, control character or unpaired surrogate. *)
Theorem getVaultList_rejects_on_errors (env : gmap string string) (post : Axios.post_t)
    (first skip : option number) (r : Axios.response)
    (e : GraphQLError.t) (es : list GraphQLError.t) :
  VaultList.reply env post first skip = Resolved r ->
  GraphQLResponse.errors (Axios.data r) = Some (e :: es) ->
  exists m,
    settled (VaultList.getVaultList env post first skip) = Rejected (Error m)
    /\ m = "Failed to fetch vault list: " +:+ "GraphQL errors: " +:+
           VaultList.stringify_errors (e :: es)
    /\ includes (escape (GraphQLError.message e)) m = true
    /\ (plain (GraphQLError.message e) = true ->
        includes (GraphQLError.message e) m = true).
Proof.
  intros Hr He. eexists. split; [apply (getVaultList_errors_message _ _ _ _ _ _ _ Hr He)|].
  split; [reflexivity|].
  assert (Hin : includes (escape (GraphQLError.message e))
                  ("Failed to fetch vault list: " +:+ "GraphQL errors: " +:+
                   VaultList.stringify_errors (e :: es)) = true)
    by (do 2 apply includes_prepend; apply stringify_errors_includes).
  split; [exact Hin|].
  intros Hp. now rewrite (escape_plain _ Hp) in Hin.
Qed.

Lemma getVaultList_rejects_on_errors_witness :
  exists m,
    settled (VaultList.getVaultList ∅
               (Samples.answering (Samples.ok None (Some [Samples.located_error])))
               (Some Samples.hundred) (Some Samples.zero)) = Rejected (Error m)
    /\ m = "Failed to fetch vault list: GraphQL errors: " +:+ Samples.located_error_text
    /\ includes "Something went wrong" m = true.
Proof.
  destruct (getVaultList_rejects_on_errors ∅
              (Samples.answering (Samples.ok None (Some [Samples.located_error])))
              (Some Samples.hundred) (Some Samples.zero)
              (Samples.ok None (Some [Samples.located_error]))
              Samples.located_error [] eq_refl eq_refl)
    as (m & Hm & Heq & _ & Hplain).
  exists m. split; [exact Hm|]. split; [|apply Hplain; reflexivity].
  rewrite Heq. vm_compute. reflexivity.
Defined.

(** C6.  When the endpoint answers the request for [(first, skip)] with
    no errors reported and with [data.vaults.items] holding N records,
    the call resolves with exactly those N records: same length, and the
    same record, field by field, at every position. *)
Theorem getVaultList_returns_items (env : gmap string string) (post : Axios.post_t)
    (first skip : option number) (r : Axios.response) (d : VaultResponseData.t) :
  VaultList.reply env post first skip = Resolved r ->
  VaultList.has_errors (Axios.data r) = false ->
  GraphQLResponse.data (Axios.data r) = Some d ->
  let items := VaultResponseData.items (VaultResponseData.vaults d) in
  exists result,
    settled (VaultList.getVaultList env post first skip) = Resolved result
    /\ result = items
    /\ length result = length items
    /\ forall i : nat, result !! i = items !! i.
Proof.
  intros Hr He Hd items. exists items.
  rewrite getVaultList_run. unfold settled. cbn [snd].
  rewrite Hr, He, Hd. repeat split; reflexivity.
Qed.

Lemma getVaultList_returns_items_witness :
  settled (VaultList.getVaultList ∅
             (Samples.answering
                (Samples.ok (Some (Samples.vault_data [Samples.vault_two; Samples.vault_one]))
                            None))
             (Some Samples.hundred) None)
  = Resolved [Samples.vault_two; Samples.vault_one].
Proof.
  destruct (getVaultList_returns_items ∅
              (Samples.answering
                 (Samples.ok (Some (Samples.vault_data [Samples.vault_two; Samples.vault_one]))
                             None))
              (Some Samples.hundred) None _ _ eq_refl eq_refl eq_refl)
    as (result & Hres & Heq & _).
  rewrite Hres, Heq. reflexivity.
Defined.

(** C7.  Two calls with the same [(first, skip)] to which the endpoint
    gives the same answer run identically: each awaits the one POST of
    the query and nothing else, and both settle with the same sequence
    (or the same rejection). *)
Theorem getVaultList_repeatable (env : gmap string string) (post post' : Axios.post_t)
    (first skip : option number) :
  VaultList.reply env post first skip = VaultList.reply env post' first skip ->
  VaultList.getVaultList env post first skip = VaultList.getVaultList env post' first skip
  /\ calls (VaultList.getVaultList env post first skip) = [VaultList.request env first skip].
Proof.
  intros H. rewrite !getVaultList_run, H. split; reflexivity.
Qed.

Lemma getVaultList_repeatable_witness :
  let answer := Samples.ok (Some (Samples.vault_data [Samples.vault_one])) None in
  VaultList.getVaultList ∅ (Samples.answering answer) (Some Samples.hundred) (Some Samples.zero)
  = VaultList.getVaultList ∅ (fun _ _ _ => Resolved answer)
      (Some Samples.hundred) (Some Samples.zero).
Proof.
  intros answer.
  apply (getVaultList_repeatable ∅ (Samples.answering answer) (fun _ _ _ => Resolved answer)
           (Some Samples.hundred) (Some Samples.zero) eq_refl).
Defined.

(** C8.  An [errors] array that is present but empty does not cause a
    rejection: with [data.vaults.items] present the call resolves with
    the items, exactly as it does on the same answer without [errors]. *)
Theorem getVaultList_empty_errors (env : gmap string string) (post post' : Axios.post_t)
    (first skip : option number) (r : Axios.response) (d : VaultResponseData.t) :
  VaultList.reply env post first skip = Resolved r ->
  GraphQLResponse.errors (Axios.data r) = Some [] ->
  GraphQLResponse.data (Axios.data r) = Some d ->
  VaultList.reply env post' first skip =
    Resolved {| Axios.status := Axios.status r;
                Axios.data := {| GraphQLResponse.data := Some d;
                                 GraphQLResponse.errors := None |} |} ->
  settled (VaultList.getVaultList env post first skip) =
    Resolved (VaultResponseData.items (VaultResponseData.vaults d))
  /\ VaultList.getVaultList env post first skip =
     VaultList.getVaultList env post' first skip.
Proof.
  intros Hr He Hd Hr'. rewrite !getVaultList_run. unfold settled. cbn [snd].
  rewrite Hr, Hr', (has_errors_empty _ (or_intror He)), Hd. cbn.
  split; reflexivity.
Qed.

Lemma getVaultList_empty_errors_witness :
  settled (VaultList.getVaultList ∅
             (Samples.answering
                (Samples.ok (Some (Samples.vault_data [Samples.vault_one])) (Some [])))
             (Some Samples.hundred) (Some Samples.zero))
  = Resolved [Samples.vault_one].
Proof.
  apply (getVaultList_empty_errors ∅
           (Samples.answering
              (Samples.ok (Some (Samples.vault_data [Samples.vault_one])) (Some [])))
           (Samples.answering
              (Samples.ok (Some (Samples.vault_data [Samples.vault_one])) None))
           (Some Samples.hundred) (Some Samples.zero) _
           (Samples.vault_data [Samples.vault_one]) eq_refl eq_refl eq_refl eq_refl).
Defined.
End VaultListClaims.

(* ===================================================================== *)
(** ** Properties of [deposit] *)
(* ===================================================================== *)

Section DepositFacts.
Import Js Async.

Variable env : gmap string string.
Variable options : DepositOptions.t.
Variable signer : Ethers.Signer.

Lemma truthy_string_given (a : string) :
  a <> EmptyString -> truthy_string (Some a) = true.
Proof. destruct a; [congruence | reflexivity]. Qed.

(** Once the address is there, the run is the submission, the wait and
    the reading of the receipt, every failure among them being caught. *)
Lemma deposit_run (l : list Ethers.call) (a : string) :
  Deposit.onBehalf_resolved options signer l a ->
  Deposit.deposit env options signer =
  match Ethers.sendTransaction signer (Deposit.submitted env options a) with
  | Rejected e =>
      ((l ++ [Ethers.Send (Deposit.submitted env options a)])%list,
       Rejected (Error ("Deposit failed: " +:+ cause_text e)))
  | Resolved tx =>
      ((l ++ [Ethers.Send (Deposit.submitted env options a); Ethers.Wait])%list,
       match Ethers.wait tx with
       | Rejected e => Rejected (Error ("Deposit failed: " +:+ cause_text e))
       | Resolved receipt =>
           Resolved {| DepositResult.assets := DepositOptions.depositAmount options;
                       DepositResult.shares :=
                         or_else (Deposit.first_event_shares receipt) (BigNumber 0) |}
       end)
  end.
Proof.
  intros H. unfold Deposit.deposit, Deposit.submitted, Ethers.invoke.
  inversion H as [a' Hgiven Hne | a' Hfalsy Haddr]; subst.
  - rewrite Hgiven, (truthy_string_given a Hne). cbn.
    destruct (Ethers.sendTransaction _ _) as [tx|e]; cbn; [|reflexivity].
    destruct (Ethers.wait tx); reflexivity.
  - rewrite Hfalsy, Haddr. cbn.
    destruct (Ethers.sendTransaction _ _) as [tx|e]; cbn; [|reflexivity].
    destruct (Ethers.wait tx); reflexivity.
Qed.

(** The address is asked for before the [try] block is entered: when
    the signer fails to give it, nothing is sent and the failure
    reaches the caller as it was raised. *)
Lemma deposit_address_failure (e : thrown) :
  truthy_string (DepositOptions.onBehalf options) = false ->
  Ethers.getAddress signer = Rejected e ->
  Deposit.deposit env options signer = ([Ethers.GetAddress], Rejected e).
Proof.
  intros Hfalsy Haddr. unfold Deposit.deposit. now rewrite Hfalsy, Haddr.
Qed.

Lemma deposit_success (l : list Ethers.call) (a : string) tx receipt :
  Deposit.onBehalf_resolved options signer l a ->
  Ethers.sendTransaction signer (Deposit.submitted env options a) = Resolved tx ->
  Ethers.wait tx = Resolved receipt ->
  settled (Deposit.deposit env options signer) =
  Resolved {| DepositResult.assets := DepositOptions.depositAmount options;
              DepositResult.shares :=
                or_else (Deposit.first_event_shares receipt) (BigNumber 0) |}.
Proof.
  intros H Hs Hw. rewrite (deposit_run l a H), Hs. unfold settled. cbn [snd].
  now rewrite Hw.
Qed.

(** The calls of a run start with the resolution of the address followed
    by the submission. *)
Lemma deposit_calls (l : list Ethers.call) (a : string) :
  Deposit.onBehalf_resolved options signer l a ->
  exists rest,
    calls (Deposit.deposit env options signer) =
      (l ++ Ethers.Send (Deposit.submitted env options a) :: rest)%list
    /\ (rest = [] \/ rest = [Ethers.Wait]).
Proof.
  intros H. rewrite (deposit_run l a H).
  destruct (Ethers.sendTransaction _ _); unfold calls; cbn [fst];
    eexists; split; try reflexivity; auto.
Qed.

(** What [receipt.events?.[0]?.args?.shares] reads. *)
Lemma first_event_shares_present receipt event rest args X :
  Ethers.events receipt = Some (event :: rest) ->
  Ethers.args event = Some args ->
  args !! "shares" = Some X ->
  Deposit.first_event_shares receipt = X.
Proof.
  intros He Ha Hx. unfold Deposit.first_event_shares.
  rewrite He. cbn. now rewrite Ha, Hx.
Qed.

Lemma first_event_shares_absent receipt :
  Ethers.events receipt = None
  \/ Ethers.events receipt = Some []
  \/ (exists event rest,
        Ethers.events receipt = Some (event :: rest)
        /\ (Ethers.args event = None
            \/ exists args : gmap string value,
                 Ethers.args event = Some args /\ args !! "shares" = None)) ->
  Deposit.first_event_shares receipt = Undefined.
Proof.
  unfold Deposit.first_event_shares.
  intros [-> | [-> | (event & rest & -> & [Ha | (args & Ha & Hx)])]]; cbn;
    try reflexivity; rewrite Ha; [reflexivity | now rewrite Hx].
Qed.
End DepositFacts.

(* ===================================================================== *)
(** ** What the specification states about [deposit] *)
(* ===================================================================== *)

Section DepositClaims.
Import Js Async.

(** C1, as stated, fails: a signer that cannot give its address makes
    [deposit] reject with the signer's own error, whose message does not
    start with "Deposit failed: "; nothing was sent. *)
Lemma deposit_address_failure_unwrapped :
  Deposit.deposit ∅ (Samples.options None) Samples.signer_without_account
    = ([Ethers.GetAddress], Rejected (Error "unknown account #0"))
  /\ starts_with "Deposit failed: " "unknown account #0" = false.
Proof. split; vm_compute; reflexivity. Qed.

(** C1, amended.  An exception raised by the submission of the contract
    call or by the wait for its confirmation makes [deposit] reject with
    an error whose message is "Deposit failed: " followed by the message
    of the cause when the cause is an [Error], and by the cause rendered
    with [String] otherwise.  The address is resolved before the [try]
    block: an exception raised by the signer's [getAddress] reaches the
    caller as it was raised, and nothing is sent. *)
Theorem deposit_failures (env : gmap string string) (options : DepositOptions.t)
    (signer : Ethers.Signer) :
  (forall l a e,
      Deposit.onBehalf_resolved options signer l a ->
      Ethers.sendTransaction signer (Deposit.submitted env options a) = Rejected e ->
      settled (Deposit.deposit env options signer) =
        Rejected (Error ("Deposit failed: " +:+ cause_text e)))
  /\ (forall l a tx e,
      Deposit.onBehalf_resolved options signer l a ->
      Ethers.sendTransaction signer (Deposit.submitted env options a) = Resolved tx ->
      Ethers.wait tx = Rejected e ->
      settled (Deposit.deposit env options signer) =
        Rejected (Error ("Deposit failed: " +:+ cause_text e)))
  /\ (forall e,
      truthy_string (DepositOptions.onBehalf options) = false ->
      Ethers.getAddress signer = Rejected e ->
      settled (Deposit.deposit env options signer) = Rejected e
      /\ calls (Deposit.deposit env options signer) = [Ethers.GetAddress]).
Proof.
  repeat split.
  - intros l a e H Hs. rewrite (deposit_run env options signer l a H), Hs. reflexivity.
  - intros l a tx e H Hs Hw. rewrite (deposit_run env options signer l a H), Hs.
    unfold settled. cbn [snd]. now rewrite Hw.
  - now rewrite (deposit_address_failure env options signer e).
  - now rewrite (deposit_address_failure env options signer e).
Qed.

Lemma deposit_failures_witness :
  settled (Deposit.deposit ∅ (Samples.options None) Samples.signer_refused)
    = Rejected (Error "Deposit failed: insufficient funds")
  /\ settled (Deposit.deposit ∅ (Samples.options (Some "0xFriend")) Samples.signer_reverted)
    = Rejected (Error "Deposit failed: transaction failed")
  /\ settled (Deposit.deposit ∅ (Samples.options None) Samples.signer_without_account)
    = Rejected (Error "unknown account #0").
Proof.
  split; [|split].
  - apply (proj1 (deposit_failures ∅ (Samples.options None) Samples.signer_refused)
             [Ethers.GetAddress] "0xSigner" (Error "insufficient funds")).
    + apply Deposit.onBehalf_of_signer; reflexivity.
    + reflexivity.
  - apply (proj1 (proj2 (deposit_failures ∅ (Samples.options (Some "0xFriend"))
                           Samples.signer_reverted))
             [] "0xFriend" {| Ethers.wait := Rejected (Error "transaction failed") |}
             (Error "transaction failed")).
    + apply Deposit.onBehalf_given; [reflexivity | discriminate].
    + reflexivity.
    + reflexivity.
  - apply (proj2 (proj2 (deposit_failures ∅ (Samples.options None)
                           Samples.signer_without_account))
             (Error "unknown account #0")); reflexivity.
Defined.

(** C3, as stated, fails: when the first event carries the empty string
    as [args.shares], the result's [shares] is the zero that was
    submitted, not the value the event carries. *)
Lemma deposit_event_shares_not_returned :
  settled (Deposit.deposit ∅ (Samples.options None)
             (Samples.signer_mining (Samples.receipt_with (Str EmptyString))))
    = Resolved {| DepositResult.assets := 50000000; DepositResult.shares := BigNumber 0 |}
  /\ BigNumber 0 <> Str EmptyString.
Proof. split; [vm_compute; reflexivity | discriminate]. Qed.

(** C3, amended.  After a successful confirmation the result's [assets]
    is the submitted [depositAmount].  Its [shares] is the [args.shares]
    value X of the first emitted event when that value is truthy (every
    [BigNumber] is); it is the zero that was submitted when there is no
    list of events, no first event, no [args] on it or no [shares]
    among them, and also when X is falsy. *)
Theorem deposit_result (env : gmap string string) (options : DepositOptions.t)
    (signer : Ethers.Signer) (l : list Ethers.call) (a : string)
    (tx : Ethers.ContractTransaction) (receipt : Ethers.ContractReceipt) :
  Deposit.onBehalf_resolved options signer l a ->
  Ethers.sendTransaction signer (Deposit.submitted env options a) = Resolved tx ->
  Ethers.wait tx = Resolved receipt ->
  exists result,
    settled (Deposit.deposit env options signer) = Resolved result
    /\ DepositResult.assets result = DepositOptions.depositAmount options
    /\ (forall event rest (args : gmap string value) X,
          Ethers.events receipt = Some (event :: rest) ->
          Ethers.args event = Some args ->
          args !! "shares" = Some X ->
          DepositResult.shares result = if truthy X then X else BigNumber 0)
    /\ (Ethers.events receipt = None
        \/ Ethers.events receipt = Some []
        \/ (exists event rest,
              Ethers.events receipt = Some (event :: rest)
              /\ (Ethers.args event = None
                  \/ exists args : gmap string value,
                       Ethers.args event = Some args /\ args !! "shares" = None)) ->
        DepositResult.shares result = BigNumber 0).
Proof.
  intros H Hs Hw. eexists. split; [apply (deposit_success env options signer l a tx receipt H Hs Hw)|].
  cbn [DepositResult.assets DepositResult.shares]. split; [reflexivity|]. split.
  - intros event rest args X He Ha Hx.
    now rewrite (first_event_shares_present receipt event rest args X He Ha Hx).
  - intros Habsent. now rewrite (first_event_shares_absent receipt Habsent).
Qed.

Lemma deposit_result_witness :
  settled (Deposit.deposit ∅ (Samples.options None)
             (Samples.signer_mining (Samples.receipt_with (BigNumber 49000000))))
    = Resolved {| DepositResult.assets := 50000000;
                  DepositResult.shares := BigNumber 49000000 |}.
Proof.
  destruct (deposit_result ∅ (Samples.options None)
              (Samples.signer_mining (Samples.receipt_with (BigNumber 49000000)))
              [Ethers.GetAddress] "0xSigner"
              {| Ethers.wait := Resolved (Samples.receipt_with (BigNumber 49000000)) |}
              (Samples.receipt_with (BigNumber 49000000))
              (Deposit.onBehalf_of_signer (Samples.options None)
                 (Samples.signer_mining (Samples.receipt_with (BigNumber 49000000)))
                 "0xSigner" eq_refl eq_refl) eq_refl eq_refl)
    as ([assets shares] & Hres & Hassets & Hshares & _).
  rewrite Hres. cbn in Hassets, Hshares.
  rewrite Hassets.
  rewrite (Hshares {| Ethers.args := Some {[ "shares" := BigNumber 49000000 ]} |} []
             {[ "shares" := BigNumber 49000000 ]} (BigNumber 49000000)
             eq_refl eq_refl eq_refl).
  reflexivity.
Defined.

(** C4.  With [onBehalf] unset and a signer that gives its address, the
    one transaction [deposit] sends is a call of [supply] on the Morpho
    contract with the arguments, in this order: the market parameters of
    the request, [depositAmount] as assets, zero as shares, the signer's
    address as [onBehalf], and ["0x"], the empty byte string, as data. *)
Theorem deposit_submits_supply (env : gmap string string) (options : DepositOptions.t)
    (signer : Ethers.Signer) (a : string) :
  DepositOptions.onBehalf options = None ->
  Ethers.getAddress signer = Resolved a ->
  exists rest,
    calls (Deposit.deposit env options signer) =
      Ethers.GetAddress ::
      Ethers.Send
        {| Ethers.to := Deposit.MORPHO_CONTRACT_ADDRESS env;
           Ethers.call_of :=
             Ethers.supply (DepositOptions.marketParams options)
               (DepositOptions.depositAmount options) 0 a "0x" |} :: rest
    /\ (rest = [] \/ rest = [Ethers.Wait])
    /\ Ethers.arrayify "0x" = Some [].
Proof.
  intros Hnone Haddr.
  assert (H : Deposit.onBehalf_resolved options signer [Ethers.GetAddress] a)
    by (apply Deposit.onBehalf_of_signer; [now rewrite Hnone | exact Haddr]).
  destruct (deposit_calls env options signer _ _ H) as (rest & Hcalls & Hrest).
  exists rest. repeat split; [exact Hcalls | exact Hrest].
Qed.

Lemma deposit_submits_supply_witness :
  exists rest,
    calls (Deposit.deposit ∅ (Samples.options None)
             (Samples.signer_mining Samples.receipt_without_events))
    = Ethers.GetAddress ::
      Ethers.Send
        {| Ethers.to := "0xBBBBBbbBBb9cC5e90e3b3Af64bdAF62C37EEFFCb";
           Ethers.call_of := Ethers.supply Samples.market 50000000 0 "0xSigner" "0x" |}
      :: rest.
Proof.
  destruct (deposit_submits_supply ∅ (Samples.options None)
              (Samples.signer_mining Samples.receipt_without_events) "0xSigner"
              eq_refl eq_refl) as (rest & Hcalls & _ & _).
  exists rest. exact Hcalls.
Defined.

(** C10.  The shares are read with a falsiness fallback: when the first
    emitted event carries an [args.shares] value that is falsy, such as
    the number 0, the result's [shares] is the zero that was submitted
    and not the value of the event. *)
Theorem deposit_falsy_shares_fallback (env : gmap string string)
    (options : DepositOptions.t) (signer : Ethers.Signer)
    (l : list Ethers.call) (a : string) (tx : Ethers.ContractTransaction)
    (receipt : Ethers.ContractReceipt) (event : Ethers.Event)
    (rest : list Ethers.Event) (args : gmap string value) (X : value) :
  Deposit.onBehalf_resolved options signer l a ->
  Ethers.sendTransaction signer (Deposit.submitted env options a) = Resolved tx ->
  Ethers.wait tx = Resolved receipt ->
  Ethers.events receipt = Some (event :: rest) ->
  Ethers.args event = Some args ->
  args !! "shares" = Some X ->
  truthy X = false ->
  settled (Deposit.deposit env options signer) =
  Resolved {| DepositResult.assets := DepositOptions.depositAmount options;
              DepositResult.shares := BigNumber 0 |}.
Proof.
  intros H Hs Hw He Ha Hx Hfalsy.
  rewrite (deposit_success env options signer l a tx receipt H Hs Hw).
  rewrite (first_event_shares_present receipt event rest args X He Ha Hx).
  unfold or_else. now rewrite Hfalsy.
Qed.

Lemma deposit_falsy_shares_fallback_witness :
  settled (Deposit.deposit ∅ (Samples.options None)
             (Samples.signer_mining (Samples.receipt_with (Number Samples.zero))))
    = Resolved {| DepositResult.assets := 50000000; DepositResult.shares := BigNumber 0 |}
  /\ BigNumber 0 <> Number Samples.zero.
Proof.
  split; [|discriminate].
  apply (deposit_falsy_shares_fallback ∅ (Samples.options None)
           (Samples.signer_mining (Samples.receipt_with (Number Samples.zero)))
           [Ethers.GetAddress] "0xSigner"
           {| Ethers.wait := Resolved (Samples.receipt_with (Number Samples.zero)) |}
           (Samples.receipt_with (Number Samples.zero))
           {| Ethers.args := Some {[ "shares" := Number Samples.zero ]} |} []
           {[ "shares" := Number Samples.zero ]} (Number Samples.zero)).
  - apply Deposit.onBehalf_of_signer; reflexivity.
  - reflexivity.
  - reflexivity.
  - reflexivity.
  - reflexivity.
  - reflexivity.
  - reflexivity.
Defined.
End DepositClaims.


(* ===================================================================== *)
(** ** Further properties of [getVaultList] *)
(* ===================================================================== *)

Section VaultListMore.
Import Js Async.

Lemma GRAPHQL_URL_not_empty (env : gmap string string) :
  VaultList.GRAPHQL_URL env <> EmptyString.
Proof.
  unfold VaultList.GRAPHQL_URL.
  destruct (env !! "MORPHO_GRAPHQL_URL") as [[|c v]|]; cbn; discriminate.
Qed.

(** X1.  A failed request (no connection, a status outside 2xx) makes
    either copy reject with the fetch-failure prefix followed by the text
    of the cause: its message when axios raised an [Error], the cause
    rendered with [String] otherwise. *)
Theorem getVaultList_transport_failure (env : gmap string string) (post : Axios.post_t)
    (first skip : option number) (e : thrown) :
  VaultList.reply env post first skip = Rejected e ->
  settled (VaultList.getVaultList env post first skip) =
    Rejected (Error ("Failed to fetch vault list: " +:+ cause_text e))
  /\ settled (VaultListDraft.getVaultList env post first skip) =
    Rejected (Error ("Failed to fetch vault list: " +:+ cause_text e)).
Proof.
  intros Hr. rewrite getVaultList_run, draft_getVaultList_run.
  unfold settled. cbn [snd]. rewrite Hr. split; reflexivity.
Qed.

Lemma getVaultList_transport_failure_witness :
  settled (VaultList.getVaultList ∅
             (fun _ _ _ => Rejected (Error "Request failed with status code 500"))
             None None)
    = Rejected (Error "Failed to fetch vault list: Request failed with status code 500")
  /\ settled (VaultList.getVaultList ∅ (fun _ _ _ => Rejected (NonError "timeout"))
                None None)
    = Rejected (Error "Failed to fetch vault list: timeout").
Proof.
  split.
  - apply (getVaultList_transport_failure ∅
             (fun _ _ _ => Rejected (Error "Request failed with status code 500"))
             None None (Error "Request failed with status code 500") eq_refl).
  - apply (getVaultList_transport_failure ∅ (fun _ _ _ => Rejected (NonError "timeout"))
             None None (NonError "timeout") eq_refl).
Defined.

(** X2.  Whatever the endpoint does, a call of either copy that does not
    resolve rejects with an [Error] object whose message starts with
    "Failed to fetch vault list: "; no failure leaves the function in
    another form. *)
Theorem getVaultList_rejections_prefixed (env : gmap string string) (post : Axios.post_t)
    (first skip : option number) :
  ((exists items, settled (VaultList.getVaultList env post first skip) = Resolved items)
   \/ exists m, settled (VaultList.getVaultList env post first skip) =
                Rejected (Error ("Failed to fetch vault list: " +:+ m)))
  /\ ((exists items, settled (VaultListDraft.getVaultList env post first skip) = Resolved items)
      \/ exists m, settled (VaultListDraft.getVaultList env post first skip) =
                   Rejected (Error ("Failed to fetch vault list: " +:+ m))).
Proof.
  rewrite getVaultList_run, draft_getVaultList_run. unfold settled. cbn [snd].
  destruct (VaultList.reply env post first skip) as [r|e]; [|split; right; eauto].
  destruct (VaultList.has_errors (Axios.data r)); [split; right; eauto|].
  destruct (GraphQLResponse.data (Axios.data r)); split; eauto.
Qed.

(** X3.  The call resolves only on a fulfilled request whose body reports
    no error and has [data]: from a resolved call one gets back the
    answer, and the sequence returned is its [data.vaults.items]. *)
Theorem getVaultList_resolved_inversion (env : gmap string string) (post : Axios.post_t)
    (first skip : option number) (result : list VaultItem.t) :
  settled (VaultList.getVaultList env post first skip) = Resolved result ->
  exists r d,
    VaultList.reply env post first skip = Resolved r
    /\ VaultList.has_errors (Axios.data r) = false
    /\ GraphQLResponse.data (Axios.data r) = Some d
    /\ result = VaultResponseData.items (VaultResponseData.vaults d).
Proof.
  rewrite getVaultList_run. unfold settled. cbn [snd].
  destruct (VaultList.reply env post first skip) as [r|e]; [|discriminate].
  destruct (VaultList.has_errors (Axios.data r)) eqn:He; [discriminate|].
  destruct (GraphQLResponse.data (Axios.data r)) as [d|] eqn:Hd; [|discriminate].
  intros [= <-]. exists r, d. auto.
Qed.

Lemma getVaultList_resolved_inversion_witness :
  exists r d,
    VaultList.reply ∅ (Samples.answering
                         (Samples.ok (Some (Samples.vault_data [Samples.vault_one])) (Some [])))
      None None = Resolved r
    /\ VaultList.has_errors (Axios.data r) = false
    /\ GraphQLResponse.data (Axios.data r) = Some d
    /\ [Samples.vault_one] = VaultResponseData.items (VaultResponseData.vaults d).
Proof.
  apply (getVaultList_resolved_inversion ∅
           (Samples.answering
              (Samples.ok (Some (Samples.vault_data [Samples.vault_one])) (Some [])))
           None None [Samples.vault_one] eq_refl).
Defined.

(** X4.  Every call makes exactly one request: a POST of the fixed query
    with the variables [first] and [skip] (1000 and 0 when omitted) and
    the single header [Content-Type: application/json].  It goes to the
    value of [MORPHO_GRAPHQL_URL] when that variable is set and not empty,
    to the public endpoint otherwise, and never to an empty URL. *)
Theorem getVaultList_request (env : gmap string string) (post : Axios.post_t)
    (first skip : option number) :
  exists url,
    calls (VaultList.getVaultList env post first skip) =
      [Axios.Post url
         {| Axios.query := VaultList.VAULTS_QUERY;
            Axios.variables_of :=
              {| Axios.first := default (number_of_Z 1000) first;
                 Axios.skip := default (number_of_Z 0) skip |} |}
         {| Axios.headers := [("Content-Type", "application/json")] |}]
    /\ url <> EmptyString
    /\ (forall v, env !! "MORPHO_GRAPHQL_URL" = Some v -> v <> EmptyString -> url = v)
    /\ (env !! "MORPHO_GRAPHQL_URL" = None
        \/ env !! "MORPHO_GRAPHQL_URL" = Some EmptyString ->
        url = "https://blue-api.morpho.org/graphql").
Proof.
  exists (VaultList.GRAPHQL_URL env). rewrite getVaultList_run.
  split; [reflexivity|]. split; [apply GRAPHQL_URL_not_empty|].
  unfold VaultList.GRAPHQL_URL. split.
  - intros v -> Hv. destruct v; [congruence | reflexivity].
  - intros [-> | ->]; reflexivity.
Qed.

Lemma getVaultList_request_witness :
  exists url,
    calls (VaultList.getVaultList
             (<["MORPHO_GRAPHQL_URL" := "http://localhost:4000/graphql"]> ∅)
             (Samples.answering (Samples.ok None None)) None None) =
      [Axios.Post url
         {| Axios.query := VaultList.VAULTS_QUERY;
            Axios.variables_of :=
              {| Axios.first := number_of_Z 1000; Axios.skip := number_of_Z 0 |} |}
         {| Axios.headers := [("Content-Type", "application/json")] |}]
    /\ url = "http://localhost:4000/graphql".
Proof.
  destruct (getVaultList_request
              (<["MORPHO_GRAPHQL_URL" := "http://localhost:4000/graphql"]> ∅)
              (Samples.answering (Samples.ok None None)) None None)
    as (url & Hcalls & _ & Hset & _).
  exists url. split; [exact Hcalls|].
  apply Hset; [reflexivity | discriminate].
Defined.

Lemma stringify_tail_includes (e : GraphQLError.t) (es : list GraphQLError.t) :
  In e es ->
  includes (escape (GraphQLError.message e)) (VaultList.stringify_tail es) = true.
Proof.
  induction es as [|e' es IH]; intros Hin; [destruct Hin|].
  change (VaultList.stringify_tail (e' :: es))
    with ("," +:+ VaultList.stringify_error e' +:+ VaultList.stringify_tail es).
  apply includes_prepend.
  destruct Hin as [-> | Hin].
  - apply includes_extend, stringify_error_includes.
  - apply includes_prepend, IH, Hin.
Qed.

(** X5.  When the body carries errors, the rejection message reports each
    of them, not only the first, whatever other properties the error
    objects have: it includes the JSON-escaped text of every error of the
    array, and the text itself of every error whose message has no double
    quote, backslash, control character or unpaired surrogate. *)
Theorem getVaultList_reports_every_error (env : gmap string string) (post : Axios.post_t)
    (first skip : option number) (r : Axios.response)
    (es : list GraphQLError.t) (e : GraphQLError.t) :
  VaultList.reply env post first skip = Resolved r ->
  GraphQLResponse.errors (Axios.data r) = Some es ->
  In e es ->
  exists m,
    settled (VaultList.getVaultList env post first skip) = Rejected (Error m)
    /\ includes (escape (GraphQLError.message e)) m = true
    /\ (plain (GraphQLError.message e) = true ->
        includes (GraphQLError.message e) m = true).
Proof.
  intros Hr He Hin.
  destruct es as [|e0 es]; [destruct Hin|].
  eexists. split; [apply (getVaultList_errors_message env post first skip r e0 es Hr He)|].
  assert (H : includes (escape (GraphQLError.message e))
                ("Failed to fetch vault list: " +:+ "GraphQL errors: " +:+
                 VaultList.stringify_errors (e0 :: es)) = true).
  { do 2 apply includes_prepend.
    change (VaultList.stringify_errors (e0 :: es))
      with ("[" +:+ VaultList.stringify_error e0 +:+ VaultList.stringify_tail es).
    apply includes_prepend.
    destruct Hin as [-> | Hin].
    - apply includes_extend, stringify_error_includes.
    - apply includes_prepend, stringify_tail_includes, Hin. }
  split; [exact H|].
  intros Hp. now rewrite (escape_plain _ Hp) in H.
Qed.

Lemma getVaultList_reports_every_error_witness :
  let errors := [Samples.cannot_query_field; Samples.located_error;
                 Samples.surrogate_error] in
  exists m,
    settled (VaultList.getVaultList ∅ (Samples.answering (Samples.ok None (Some errors)))
               None None) = Rejected (Error m)
    /\ includes "Something went wrong" m = true
    /\ includes ("bad" +:+ String backslash "ud800") m = true.
Proof.
  intros errors.
  destruct (getVaultList_reports_every_error ∅
              (Samples.answering (Samples.ok None (Some errors))) None None
              (Samples.ok None (Some errors)) errors
              Samples.located_error eq_refl eq_refl (or_intror (or_introl eq_refl)))
    as (m & Hm & _ & Hplain).
  destruct (getVaultList_reports_every_error ∅
              (Samples.answering (Samples.ok None (Some errors))) None None
              (Samples.ok None (Some errors)) errors
              Samples.surrogate_error eq_refl eq_refl
              (or_intror (or_intror (or_introl eq_refl))))
    as (m' & Hm' & Hescaped & _).
  exists m. split; [exact Hm|]. split; [apply Hplain; reflexivity|].
  rewrite Hm in Hm'. injection Hm' as <-. exact Hescaped.
Defined.

(** X6.  The two copies of [getVaultList] make the same request on every
    call and settle alike on every answer but one: a fulfilled request
    whose body reports no error and has no [data]. *)
Theorem getVaultList_copies_differ_only_without_data (env : gmap string string)
    (post : Axios.post_t) (first skip : option number) :
  calls (VaultListDraft.getVaultList env post first skip) =
    calls (VaultList.getVaultList env post first skip)
  /\ (settled (VaultListDraft.getVaultList env post first skip) =
        settled (VaultList.getVaultList env post first skip)
      \/ exists r,
           VaultList.reply env post first skip = Resolved r
           /\ VaultList.has_errors (Axios.data r) = false
           /\ GraphQLResponse.data (Axios.data r) = None).
Proof.
  rewrite getVaultList_run, draft_getVaultList_run. unfold calls, settled. cbn [fst snd].
  split; [reflexivity|].
  destruct (VaultList.reply env post first skip) as [r|e]; [|now left].
  destruct (VaultList.has_errors (Axios.data r)) eqn:He; [now left|].
  destruct (GraphQLResponse.data (Axios.data r)) eqn:Hd; [now left|].
  right. exists r. auto.
Qed.
End VaultListMore.

(* ===================================================================== *)
(** ** Further properties of [deposit] *)
(* ===================================================================== *)

Section DepositMore.
Import Js Async.

Variable env : gmap string string.
Variable options : DepositOptions.t.
Variable signer : Ethers.Signer.

(** The evaluation of [options.onBehalf || (await signer.getAddress())]
    either comes to an address or fails with the signer. *)
Lemma onBehalf_cases :
  (exists l a, Deposit.onBehalf_resolved options signer l a)
  \/ (truthy_string (DepositOptions.onBehalf options) = false
      /\ exists e, Ethers.getAddress signer = Rejected e).
Proof.
  destruct (DepositOptions.onBehalf options) as [[|c b]|] eqn:Hb.
  - destruct (Ethers.getAddress signer) as [a|e] eqn:Ha.
    + left. exists [Ethers.GetAddress], a.
      apply Deposit.onBehalf_of_signer; [now rewrite Hb | exact Ha].
    + right. eauto.
  - left. exists [], (String c b). now apply Deposit.onBehalf_given.
  - destruct (Ethers.getAddress signer) as [a|e] eqn:Ha.
    + left. exists [Ethers.GetAddress], a.
      apply Deposit.onBehalf_of_signer; [now rewrite Hb | exact Ha].
    + right. eauto.
Qed.

Lemma onBehalf_resolved_calls (l : list Ethers.call) (a : string) :
  Deposit.onBehalf_resolved options signer l a -> l = [] \/ l = [Ethers.GetAddress].
Proof. intros H. inversion H; auto. Qed.

Lemma MORPHO_CONTRACT_ADDRESS_not_empty :
  Deposit.MORPHO_CONTRACT_ADDRESS env <> EmptyString.
Proof.
  unfold Deposit.MORPHO_CONTRACT_ADDRESS.
  destruct (env !! "MORPHO_CONTRACT_ADDRESS") as [[|c v]|]; cbn; discriminate.
Qed.

Lemma or_else_truthy (v : value) : truthy (or_else v (BigNumber 0)) = true.
Proof. unfold or_else. destruct (truthy v) eqn:Hv; [exact Hv | reflexivity]. Qed.
End DepositMore.

Section DepositExtras.
Import Js Async.

(** X8.  A deposit that resolves has been submitted and confirmed: the
    address was obtained, the transaction was accepted, its confirmation
    arrived, the wait was the last call, and the result holds the
    submitted [depositAmount] as [assets]. *)
Theorem deposit_resolved_inversion (env : gmap string string) (options : DepositOptions.t)
    (signer : Ethers.Signer) (result : DepositResult.t) :
  settled (Deposit.deposit env options signer) = Resolved result ->
  exists l a tx receipt,
    Deposit.onBehalf_resolved options signer l a
    /\ Ethers.sendTransaction signer (Deposit.submitted env options a) = Resolved tx
    /\ Ethers.wait tx = Resolved receipt
    /\ calls (Deposit.deposit env options signer) =
         (l ++ [Ethers.Send (Deposit.submitted env options a); Ethers.Wait])%list
    /\ DepositResult.assets result = DepositOptions.depositAmount options.
Proof.
  destruct (onBehalf_cases options signer) as [(l & a & H) | (Hf & e & He)].
  - rewrite (deposit_run env options signer l a H). unfold settled, calls.
    destruct (Ethers.sendTransaction signer _) as [tx|e] eqn:Hs; cbn [fst snd];
      [|discriminate].
    destruct (Ethers.wait tx) as [receipt|e] eqn:Hw; [|discriminate].
    intros [= <-]. exists l, a, tx, receipt. auto.
  - rewrite (deposit_address_failure env options signer e Hf He). discriminate.
Qed.

Lemma deposit_resolved_inversion_witness :
  exists l a tx receipt,
    Deposit.onBehalf_resolved (Samples.options (Some "0xFriend"))
      (Samples.signer_mining Samples.receipt_without_events) l a
    /\ Ethers.sendTransaction (Samples.signer_mining Samples.receipt_without_events)
         (Deposit.submitted ∅ (Samples.options (Some "0xFriend")) a) = Resolved tx
    /\ Ethers.wait tx = Resolved receipt
    /\ calls (Deposit.deposit ∅ (Samples.options (Some "0xFriend"))
                (Samples.signer_mining Samples.receipt_without_events)) =
         (l ++ [Ethers.Send (Deposit.submitted ∅ (Samples.options (Some "0xFriend")) a);
                Ethers.Wait])%list
    /\ 50000000%Z = DepositOptions.depositAmount (Samples.options (Some "0xFriend")).
Proof.
  apply (deposit_resolved_inversion ∅ (Samples.options (Some "0xFriend"))
           (Samples.signer_mining Samples.receipt_without_events)
           {| DepositResult.assets := 50000000; DepositResult.shares := BigNumber 0 |}
           eq_refl).
Defined.

(** X9.  The [shares] of a result is never a falsy value: whatever the
    receipt holds, a resolved deposit carries neither [undefined] nor
    [null], nor a zero number or an empty string, as its [shares]. *)
Theorem deposit_shares_truthy (env : gmap string string) (options : DepositOptions.t)
    (signer : Ethers.Signer) (result : DepositResult.t) :
  settled (Deposit.deposit env options signer) = Resolved result ->
  truthy (DepositResult.shares result) = true.
Proof.
  destruct (onBehalf_cases options signer) as [(l & a & H) | (Hf & e & He)].
  - rewrite (deposit_run env options signer l a H). unfold settled.
    destruct (Ethers.sendTransaction signer _) as [tx|e]; cbn [snd]; [|discriminate].
    destruct (Ethers.wait tx) as [receipt|e]; [|discriminate].
    intros [= <-]. apply or_else_truthy.
  - rewrite (deposit_address_failure env options signer e Hf He). discriminate.
Qed.

Lemma deposit_shares_truthy_witness :
  settled (Deposit.deposit ∅ (Samples.options None)
             (Samples.signer_mining (Samples.receipt_with Null)))
    = Resolved {| DepositResult.assets := 50000000; DepositResult.shares := BigNumber 0 |}
  /\ truthy (BigNumber 0) = true.
Proof.
  split; [reflexivity|].
  apply (deposit_shares_truthy ∅ (Samples.options None)
           (Samples.signer_mining (Samples.receipt_with Null))
           {| DepositResult.assets := 50000000; DepositResult.shares := BigNumber 0 |}
           eq_refl).
Defined.

Lemma first_event_shares_head (receipt : Ethers.ContractReceipt) :
  Deposit.first_event_shares receipt =
  match from_option (fun events => events !! 0%nat) None (Ethers.events receipt) with
  | Some event =>
      match Ethers.args event with
      | Some args => default Undefined (args !! "shares")
      | None => Undefined
      end
  | None => Undefined
  end.
Proof.
  unfold Deposit.first_event_shares.
  destruct (Ethers.events receipt) as [events|]; cbn; [|reflexivity].
  destruct (events !! 0%nat); reflexivity.
Qed.

(** X10.  Only the first emitted event is read: two confirmed deposits of
    the same request whose receipts have the same first event (or both
    none) resolve with the same result, whatever the later events hold
    and whichever signer sent them. *)
Theorem deposit_reads_first_event_only (env : gmap string string)
    (options : DepositOptions.t) (signer signer' : Ethers.Signer)
    (l l' : list Ethers.call) (a a' : string) (tx tx' : Ethers.ContractTransaction)
    (receipt receipt' : Ethers.ContractReceipt) :
  Deposit.onBehalf_resolved options signer l a ->
  Ethers.sendTransaction signer (Deposit.submitted env options a) = Resolved tx ->
  Ethers.wait tx = Resolved receipt ->
  Deposit.onBehalf_resolved options signer' l' a' ->
  Ethers.sendTransaction signer' (Deposit.submitted env options a') = Resolved tx' ->
  Ethers.wait tx' = Resolved receipt' ->
  from_option (fun events => events !! 0%nat) None (Ethers.events receipt) =
    from_option (fun events => events !! 0%nat) None (Ethers.events receipt') ->
  settled (Deposit.deposit env options signer) =
  settled (Deposit.deposit env options signer').
Proof.
  intros H Hs Hw H' Hs' Hw' Hfirst.
  rewrite (deposit_success env options signer l a tx receipt H Hs Hw).
  rewrite (deposit_success env options signer' l' a' tx' receipt' H' Hs' Hw').
  now rewrite !first_event_shares_head, Hfirst.
Qed.

Lemma deposit_reads_first_event_only_witness :
  let first := {| Ethers.args := None |} in
  let later := {| Ethers.args := Some {[ "shares" := BigNumber 49000000 ]} |} in
  settled (Deposit.deposit ∅ (Samples.options None)
             (Samples.signer_mining {| Ethers.events := Some [first; later] |}))
  = settled (Deposit.deposit ∅ (Samples.options None)
               (Samples.signer_mining {| Ethers.events := Some [first] |})).
Proof.
  intros first later.
  apply (deposit_reads_first_event_only ∅ (Samples.options None)
           (Samples.signer_mining {| Ethers.events := Some [first; later] |})
           (Samples.signer_mining {| Ethers.events := Some [first] |})
           [Ethers.GetAddress] [Ethers.GetAddress] "0xSigner" "0xSigner"
           {| Ethers.wait := Resolved {| Ethers.events := Some [first; later] |} |}
           {| Ethers.wait := Resolved {| Ethers.events := Some [first] |} |}
           {| Ethers.events := Some [first; later] |}
           {| Ethers.events := Some [first] |}).
  - apply Deposit.onBehalf_of_signer; reflexivity.
  - reflexivity.
  - reflexivity.
  - apply Deposit.onBehalf_of_signer; reflexivity.
  - reflexivity.
  - reflexivity.
  - reflexivity.
Defined.

(** X11.  Whatever [onBehalf] is, a transaction sent by [deposit] goes to
    the Morpho contract address, which is never empty, and calls [supply]
    with the market parameters of the request unchanged, [depositAmount]
    as assets, zero as shares and ["0x"] as data; its [onBehalf] argument
    is the address given in the request when there is one, and the one
    the signer resolved otherwise. *)
Theorem deposit_sends_only_supply (env : gmap string string) (options : DepositOptions.t)
    (signer : Ethers.Signer) (r : Ethers.TransactionRequest) :
  In (Ethers.Send r) (calls (Deposit.deposit env options signer)) ->
  Ethers.to r = Deposit.MORPHO_CONTRACT_ADDRESS env
  /\ Ethers.to r <> EmptyString
  /\ exists a,
       Ethers.call_of r =
         Ethers.supply (DepositOptions.marketParams options)
           (DepositOptions.depositAmount options) 0 a "0x"
       /\ (forall b, DepositOptions.onBehalf options = Some b -> b <> EmptyString -> a = b)
       /\ (truthy_string (DepositOptions.onBehalf options) = false ->
           Ethers.getAddress signer = Resolved a).
Proof.
  intros Hin.
  destruct (onBehalf_cases options signer) as [(l & a & H) | (Hf & e & He)].
  - destruct (deposit_calls env options signer l a H) as (rest & Hcalls & Hrest).
    rewrite Hcalls in Hin.
    assert (Hr : r = Deposit.submitted env options a).
    { destruct (onBehalf_resolved_calls options signer l a H) as [-> | ->];
        destruct Hrest as [-> | ->]; cbn in Hin;
        repeat (destruct Hin as [Hin | Hin]; [congruence|]); destruct Hin. }
    subst r. cbn. split; [reflexivity|].
    split; [apply MORPHO_CONTRACT_ADDRESS_not_empty|].
    exists a. split; [reflexivity|].
    inversion H as [a0 Hgiven Hne | a0 Hfalsy Haddr]; subst; split.
    + intros b Hb _. congruence.
    + intros Hfalsy. rewrite Hgiven in Hfalsy.
      now rewrite (truthy_string_given a Hne) in Hfalsy.
    + intros b Hb Hne. rewrite Hb in Hfalsy.
      now rewrite (truthy_string_given b Hne) in Hfalsy.
    + intros _. exact Haddr.
  - rewrite (deposit_address_failure env options signer e Hf He) in Hin.
    cbn in Hin. destruct Hin as [Hin | []]. discriminate Hin.
Qed.

Lemma deposit_sends_only_supply_witness :
  let there := <["MORPHO_CONTRACT_ADDRESS" := "0xMorphoOnTestnet"]> ∅ in
  let r := {| Ethers.to := "0xMorphoOnTestnet";
              Ethers.call_of :=
                Ethers.supply Samples.market 50000000 0 "0xFriend" "0x" |} in
  In (Ethers.Send r)
     (calls (Deposit.deposit there (Samples.options (Some "0xFriend"))
               Samples.signer_without_account))
  /\ Ethers.to r = Deposit.MORPHO_CONTRACT_ADDRESS there.
Proof.
  intros there r.
  assert (Hin : In (Ethers.Send r)
                  (calls (Deposit.deposit there (Samples.options (Some "0xFriend"))
                            Samples.signer_without_account)))
    by (left; reflexivity).
  split; [exact Hin|].
  apply (deposit_sends_only_supply there (Samples.options (Some "0xFriend"))
           Samples.signer_without_account r Hin).
Defined.

End DepositExtras.

(* ===================================================================== *)
(** ** The test suite passes *)
(* ===================================================================== *)

Section ClientTestFacts.
Import Js Async.

Lemma mock_reply (env : gmap string string) (body : GraphQLResponse.t)
    (first skip : option number) :
  VaultList.reply env (ClientTest.onPost_reply_200 (ClientTest.GRAPHQL_URL env) body)
    first skip = Resolved {| Axios.status := 200; Axios.data := body |}.
Proof.
  unfold VaultList.reply, ClientTest.onPost_reply_200.
  change (ClientTest.GRAPHQL_URL env) with (VaultList.GRAPHQL_URL env).
  now rewrite String.eqb_refl.
Qed.

(** X13.  Both tests of [tests/client.test.ts] pass in every process
    environment: the test file derives the mocked URL from
    [MORPHO_GRAPHQL_URL] the way the module does, so the request always
    reaches the handler the test installed, never the 404 fallback. *)
Theorem client_tests_pass (env : gmap string string) :
  ClientTest.should_successfully_fetch_vaults env = true
  /\ ClientTest.should_throw_error_on_GraphQL_error env = true.
Proof.
  unfold ClientTest.should_successfully_fetch_vaults,
    ClientTest.should_throw_error_on_GraphQL_error.
  rewrite !getVaultList_run, !mock_reply. split; vm_compute; reflexivity.
Qed.
End ClientTestFacts.

(* ===================================================================== *)
(** ** [deposit] on ethers.js: the calls the signer receives *)
(* ===================================================================== *)

Section OnEthersFacts.
Import Js Async.

Variable env : gmap string string.
Variable options : DepositOptions.t.
Variable w : OnEthers.Wallet.

Lemma deposit_on_constructor_failure (e : thrown) :
  OnEthers.construct w (Deposit.MORPHO_CONTRACT_ADDRESS env) = Some e ->
  OnEthers.deposit env options w = ([], Rejected e).
Proof. intros H. unfold OnEthers.deposit. now rewrite H. Qed.

Lemma deposit_on_address_failure (e : thrown) :
  OnEthers.construct w (Deposit.MORPHO_CONTRACT_ADDRESS env) = None ->
  truthy_string (DepositOptions.onBehalf options) = false ->
  OnEthers.getAddress w = Rejected e ->
  OnEthers.deposit env options w = ([Ethers.GetAddress], Rejected e).
Proof.
  intros Hc Hf Ha. unfold OnEthers.deposit. now rewrite Hc, Hf, Ha.
Qed.

(** Once the contract object is built and the address is there: the
    method call asks the signer for its address, then for the
    transaction, and the confirmation is waited for. *)
Lemma deposit_on_run (l : list Ethers.call) (a : string) :
  OnEthers.construct w (Deposit.MORPHO_CONTRACT_ADDRESS env) = None ->
  Deposit.onBehalf_resolved options (OnEthers.through_contract w) l a ->
  OnEthers.deposit env options w =
  match OnEthers.prepared w (Deposit.submitted env options a) with
  | Some e =>
      ((l ++ [Ethers.GetAddress])%list,
       Rejected (Error ("Deposit failed: " +:+ cause_text e)))
  | None =>
      match OnEthers.sendTransaction w (Deposit.submitted env options a) with
      | Rejected e =>
          ((l ++ [Ethers.GetAddress; Ethers.Send (Deposit.submitted env options a)])%list,
           Rejected (Error ("Deposit failed: " +:+ cause_text e)))
      | Resolved tx =>
          ((l ++ [Ethers.GetAddress; Ethers.Send (Deposit.submitted env options a);
                  Ethers.Wait])%list,
           match Ethers.wait tx with
           | Rejected e => Rejected (Error ("Deposit failed: " +:+ cause_text e))
           | Resolved receipt =>
               Resolved {| DepositResult.assets := DepositOptions.depositAmount options;
                           DepositResult.shares :=
                             or_else (Deposit.first_event_shares receipt) (BigNumber 0) |}
           end)
      end
  end.
Proof.
  intros Hc H. unfold OnEthers.deposit, OnEthers.method_call. rewrite Hc.
  fold (Deposit.submitted env options a).
  inversion H as [a' Hgiven Hne | a' Hfalsy Haddr]; subst.
  - rewrite Hgiven, (truthy_string_given a Hne). cbn.
    fold (Deposit.submitted env options a).
    destruct (OnEthers.prepared w _); cbn; [reflexivity|].
    destruct (OnEthers.sendTransaction w _) as [tx|e]; cbn; [|reflexivity].
    destruct (Ethers.wait tx); reflexivity.
  - cbn in Haddr. rewrite Hfalsy, Haddr. cbn.
    fold (Deposit.submitted env options a).
    destruct (OnEthers.prepared w _); cbn; [reflexivity|].
    destruct (OnEthers.sendTransaction w _) as [tx|e]; cbn; [|reflexivity].
    destruct (Ethers.wait tx); reflexivity.
Qed.

(** The calls that follow the resolution of the address. *)
Lemma deposit_on_calls (l : list Ethers.call) (a : string) :
  OnEthers.construct w (Deposit.MORPHO_CONTRACT_ADDRESS env) = None ->
  Deposit.onBehalf_resolved options (OnEthers.through_contract w) l a ->
  exists rest,
    calls (OnEthers.deposit env options w) = (l ++ Ethers.GetAddress :: rest)%list
    /\ (rest = []
        \/ rest = [Ethers.Send (Deposit.submitted env options a)]
        \/ rest = [Ethers.Send (Deposit.submitted env options a); Ethers.Wait])
    /\ (OnEthers.prepared w (Deposit.submitted env options a) = None -> rest <> []).
Proof.
  intros Hc H. rewrite (deposit_on_run l a Hc H). unfold calls.
  destruct (OnEthers.prepared w _).
  - exists []. cbn [fst]. split; [reflexivity|]. split; [auto | discriminate].
  - destruct (OnEthers.sendTransaction w _); cbn [fst]; eexists;
      (split; [reflexivity|]); (split; [auto | discriminate]).
Qed.

(** The submission [deposit] sees through the contract object settles as
    the method call does: what is proved of [deposit] for every signer
    holds of the run on ethers once the contract object is built. *)
Lemma deposit_on_settles :
  OnEthers.construct w (Deposit.MORPHO_CONTRACT_ADDRESS env) = None ->
  settled (OnEthers.deposit env options w) =
  settled (Deposit.deposit env options (OnEthers.through_contract w)).
Proof.
  intros Hc.
  destruct (onBehalf_cases options (OnEthers.through_contract w))
    as [(l & a & H) | (Hf & e & He)].
  - rewrite (deposit_on_run l a Hc H), (deposit_run env options _ l a H).
    unfold OnEthers.through_contract at 1. cbn [Ethers.sendTransaction].
    unfold OnEthers.method_call, settled.
    destruct (OnEthers.prepared w _); cbn; [reflexivity|].
    destruct (OnEthers.sendTransaction w _); reflexivity.
  - rewrite (deposit_on_address_failure e Hc Hf He).
    now rewrite (deposit_address_failure env options _ e Hf He).
Qed.
End OnEthersFacts.

Section OnEthersClaims.
Import Js Async.

(** C9, as stated, fails: with the non-empty [onBehalf] [0xFriend] the
    signer is still asked for its address, by the contract method that
    fills [from]; and when the signer cannot give it the deposit is
    rejected, nothing having been sent. *)
Lemma deposit_asks_address_despite_onBehalf :
  In Ethers.GetAddress
     (calls (OnEthers.deposit ∅ (Samples.options (Some "0xFriend"))
               (Samples.wallet_mining Samples.receipt_without_events)))
  /\ OnEthers.deposit ∅ (Samples.options (Some "0xFriend")) Samples.wallet_without_account
     = ([Ethers.GetAddress], Rejected (Error "Deposit failed: unknown account #0")).
Proof. split; [left; reflexivity | vm_compute; reflexivity]. Qed.

(** C9, amended.  The choice of [onBehalf] tests truthiness.  When
    [onBehalf] is supplied as the empty string, [deposit] asks the signer
    for its address and the address sent is the one the signer gives.
    When it is supplied and not empty, [deposit] does not ask: the address
    sent is the one supplied.  In both cases the contract method asks the
    signer for its address once more, to fill [from]: the signer's
    [getAddress] is invoked twice in the first case and once, not never,
    in the second. *)
Theorem deposit_onBehalf_truthiness (env : gmap string string)
    (options : DepositOptions.t) (w : OnEthers.Wallet) :
  OnEthers.construct w (Deposit.MORPHO_CONTRACT_ADDRESS env) = None ->
  (forall a,
      DepositOptions.onBehalf options = Some EmptyString ->
      OnEthers.getAddress w = Resolved a ->
      exists rest,
        calls (OnEthers.deposit env options w) =
          Ethers.GetAddress :: Ethers.GetAddress :: rest
        /\ ~ In Ethers.GetAddress rest
        /\ (forall r, In (Ethers.Send r) rest -> r = Deposit.submitted env options a)
        /\ (OnEthers.prepared w (Deposit.submitted env options a) = None ->
            In (Ethers.Send (Deposit.submitted env options a)) rest))
  /\ (forall b,
      DepositOptions.onBehalf options = Some b ->
      b <> EmptyString ->
      exists rest,
        calls (OnEthers.deposit env options w) = Ethers.GetAddress :: rest
        /\ ~ In Ethers.GetAddress rest
        /\ (forall r, In (Ethers.Send r) rest -> r = Deposit.submitted env options b)
        /\ (OnEthers.prepared w (Deposit.submitted env options b) = None ->
            In (Ethers.Send (Deposit.submitted env options b)) rest)).
Proof.
  intros Hc.
  assert (Hrest : forall a rest,
             (rest = []
              \/ rest = [Ethers.Send (Deposit.submitted env options a)]
              \/ rest = [Ethers.Send (Deposit.submitted env options a); Ethers.Wait]) ->
             (OnEthers.prepared w (Deposit.submitted env options a) = None -> rest <> []) ->
             ~ In Ethers.GetAddress rest
             /\ (forall r, In (Ethers.Send r) rest -> r = Deposit.submitted env options a)
             /\ (OnEthers.prepared w (Deposit.submitted env options a) = None ->
                 In (Ethers.Send (Deposit.submitted env options a)) rest)).
  { intros a rest [-> | [-> | ->]] Hne; repeat split.
    - intros [].
    - intros r [].
    - intros Hp. now destruct (Hne Hp).
    - intros [Hin | []]. discriminate Hin.
    - intros r [Hin | []]. congruence.
    - intros _. now left.
    - intros [Hin | [Hin | []]]; discriminate Hin.
    - intros r [Hin | [Hin | []]]; [congruence | discriminate Hin].
    - intros _. now left. }
  split.
  - intros a Hempty Haddr.
    assert (H : Deposit.onBehalf_resolved options (OnEthers.through_contract w)
                  [Ethers.GetAddress] a)
      by (apply Deposit.onBehalf_of_signer; [now rewrite Hempty | exact Haddr]).
    destruct (deposit_on_calls env options w _ a Hc H) as (rest & Hcalls & Hshape & Hne).
    exists rest. split; [exact Hcalls|]. now apply Hrest.
  - intros b Hgiven Hb.
    pose proof (Deposit.onBehalf_given options (OnEthers.through_contract w) b Hgiven Hb)
      as H.
    destruct (deposit_on_calls env options w _ b Hc H) as (rest & Hcalls & Hshape & Hne).
    exists rest. split; [exact Hcalls|]. now apply Hrest.
Qed.

Lemma deposit_onBehalf_truthiness_witness :
  (exists rest,
     calls (OnEthers.deposit ∅ (Samples.options (Some EmptyString))
              (Samples.wallet_mining Samples.receipt_without_events))
       = Ethers.GetAddress :: Ethers.GetAddress :: rest
     /\ In (Ethers.Send
              {| Ethers.to := "0xBBBBBbbBBb9cC5e90e3b3Af64bdAF62C37EEFFCb";
                 Ethers.call_of :=
                   Ethers.supply Samples.market 50000000 0 "0xSigner" "0x" |}) rest)
  /\ (exists rest,
        calls (OnEthers.deposit ∅ (Samples.options (Some "0xFriend"))
                 (Samples.wallet_mining Samples.receipt_without_events))
          = Ethers.GetAddress :: rest
        /\ ~ In Ethers.GetAddress rest
        /\ In (Ethers.Send
                 {| Ethers.to := "0xBBBBBbbBBb9cC5e90e3b3Af64bdAF62C37EEFFCb";
                    Ethers.call_of :=
                      Ethers.supply Samples.market 50000000 0 "0xFriend" "0x" |}) rest).
Proof.
  split.
  - destruct (proj1 (deposit_onBehalf_truthiness ∅ (Samples.options (Some EmptyString))
                       (Samples.wallet_mining Samples.receipt_without_events) eq_refl)
                "0xSigner" eq_refl eq_refl) as (rest & Hcalls & _ & _ & Hsent).
    exists rest. split; [exact Hcalls | exact (Hsent eq_refl)].
  - destruct (proj2 (deposit_onBehalf_truthiness ∅ (Samples.options (Some "0xFriend"))
                       (Samples.wallet_mining Samples.receipt_without_events) eq_refl)
                "0xFriend" eq_refl ltac:(discriminate))
      as (rest & Hcalls & Hnot & _ & Hsent).
    exists rest. split; [exact Hcalls|]. split; [exact Hnot | exact (Hsent eq_refl)].
Defined.

(** X7.  Counting the calls made on the signer by [deposit] and by the
    contract object ([getAddress], [sendTransaction]) and the wait on the
    transaction, a run of [deposit] makes one of seven sequences of
    calls: none (the contract object could not be built); the address
    request alone; or, after the address request of [deposit] itself when
    [onBehalf] is not given, the address request of the contract method
    alone (the call could not be prepared), followed by the submission of
    the one [supply] request, followed by the wait.  At most one
    transaction is sent, nothing is retried, a confirmation is waited for
    only after a submission, and the address is asked at most twice and
    always before the submission. *)
Theorem deposit_call_sequences (env : gmap string string) (options : DepositOptions.t)
    (w : OnEthers.Wallet) :
  calls (OnEthers.deposit env options w) = []
  \/ calls (OnEthers.deposit env options w) = [Ethers.GetAddress]
  \/ exists a,
       let r := Deposit.submitted env options a in
       calls (OnEthers.deposit env options w) = [Ethers.GetAddress; Ethers.Send r]
       \/ calls (OnEthers.deposit env options w) =
            [Ethers.GetAddress; Ethers.Send r; Ethers.Wait]
       \/ calls (OnEthers.deposit env options w) = [Ethers.GetAddress; Ethers.GetAddress]
       \/ calls (OnEthers.deposit env options w) =
            [Ethers.GetAddress; Ethers.GetAddress; Ethers.Send r]
       \/ calls (OnEthers.deposit env options w) =
            [Ethers.GetAddress; Ethers.GetAddress; Ethers.Send r; Ethers.Wait].
Proof.
  destruct (OnEthers.construct w (Deposit.MORPHO_CONTRACT_ADDRESS env)) as [e|] eqn:Hc.
  { left. now rewrite (deposit_on_constructor_failure env options w e Hc). }
  right.
  destruct (onBehalf_cases options (OnEthers.through_contract w))
    as [(l & a & H) | (Hf & e & He)].
  - destruct (deposit_on_calls env options w l a Hc H) as (rest & -> & Hrest & _).
    destruct (onBehalf_resolved_calls options _ l a H) as [-> | ->];
      destruct Hrest as [-> | [-> | ->]]; cbn;
      solve [ now left | right; exists a; cbn zeta; auto 6 ].
  - left. now rewrite (deposit_on_address_failure env options w e Hc Hf He).
Qed.

(** X12.  A rejected deposit is of one of three kinds.  The contract
    object could not be built: no call was made and the rejection is what
    the constructor threw.  Or the signer failed to give the address
    [deposit] asked for: that request is the only call and the rejection
    is the signer's own.  Or the rejection is an [Error] whose message is
    "Deposit failed: " followed by the text of the cause, which was raised
    by the preparation of the method call (nothing was sent), by the
    signer's [sendTransaction], or by the wait. *)
Theorem deposit_rejected_inversion (env : gmap string string) (options : DepositOptions.t)
    (w : OnEthers.Wallet) (e : thrown) :
  settled (OnEthers.deposit env options w) = Rejected e ->
  (OnEthers.construct w (Deposit.MORPHO_CONTRACT_ADDRESS env) = Some e
   /\ calls (OnEthers.deposit env options w) = [])
  \/ (truthy_string (DepositOptions.onBehalf options) = false
      /\ OnEthers.getAddress w = Rejected e
      /\ calls (OnEthers.deposit env options w) = [Ethers.GetAddress])
  \/ (exists l a cause,
        Deposit.onBehalf_resolved options (OnEthers.through_contract w) l a
        /\ e = Error ("Deposit failed: " +:+ cause_text cause)
        /\ let r := Deposit.submitted env options a in
           (OnEthers.prepared w r = Some cause
            /\ calls (OnEthers.deposit env options w) = (l ++ [Ethers.GetAddress])%list)
           \/ (OnEthers.prepared w r = None
               /\ OnEthers.sendTransaction w r = Rejected cause
               /\ calls (OnEthers.deposit env options w) =
                    (l ++ [Ethers.GetAddress; Ethers.Send r])%list)
           \/ (OnEthers.prepared w r = None
               /\ exists tx,
                    OnEthers.sendTransaction w r = Resolved tx
                    /\ Ethers.wait tx = Rejected cause
                    /\ calls (OnEthers.deposit env options w) =
                         (l ++ [Ethers.GetAddress; Ethers.Send r; Ethers.Wait])%list)).
Proof.
  destruct (OnEthers.construct w (Deposit.MORPHO_CONTRACT_ADDRESS env)) as [e0|] eqn:Hc.
  { rewrite (deposit_on_constructor_failure env options w e0 Hc).
    unfold settled, calls. cbn [fst snd]. intros [= <-]. left. auto. }
  destruct (onBehalf_cases options (OnEthers.through_contract w))
    as [(l & a & H) | (Hf & e0 & He)].
  - rewrite (deposit_on_run env options w l a Hc H). unfold settled, calls.
    destruct (OnEthers.prepared w _) as [cause|] eqn:Hp; cbn [fst snd].
    + intros [= <-]. right. right. exists l, a, cause. cbn zeta.
      split; [exact H|]. split; [reflexivity|]. left. split; [exact Hp | reflexivity].
    + destruct (OnEthers.sendTransaction w _) as [tx|cause] eqn:Hs; cbn [fst snd].
      * destruct (Ethers.wait tx) as [receipt|cause] eqn:Hw; [discriminate|].
        intros [= <-]. right. right. exists l, a, cause. cbn zeta.
        split; [exact H|]. split; [reflexivity|]. right. right.
        split; [exact Hp|]. exists tx. split; [exact Hs|]. split; [exact Hw | reflexivity].
      * intros [= <-]. right. right. exists l, a, cause. cbn zeta.
        split; [exact H|]. split; [reflexivity|]. right. left.
        split; [exact Hp|]. split; [exact Hs | reflexivity].
  - rewrite (deposit_on_address_failure env options w e0 Hc Hf He).
    unfold settled, calls. cbn [fst snd]. intros [= <-]. right. left. auto.
Qed.

Lemma deposit_rejected_inversion_witness :
  (OnEthers.construct Samples.wallet_without_provider
     (Deposit.MORPHO_CONTRACT_ADDRESS ∅)
   = Some (Error "provider is required to use ENS name as contract address")
   /\ calls (OnEthers.deposit ∅ (Samples.options None) Samples.wallet_without_provider) = [])
  /\ exists l a cause,
       Deposit.onBehalf_resolved (Samples.options (Some "0xFriend"))
         (OnEthers.through_contract Samples.wallet_without_account) l a
       /\ Error "Deposit failed: unknown account #0" =
          Error ("Deposit failed: " +:+ cause_text cause)
       /\ calls (OnEthers.deposit ∅ (Samples.options (Some "0xFriend"))
                   Samples.wallet_without_account) = (l ++ [Ethers.GetAddress])%list.
Proof.
  split.
  - destruct (deposit_rejected_inversion ∅ (Samples.options None)
                Samples.wallet_without_provider
                (Error "provider is required to use ENS name as contract address") eq_refl)
      as [H | [(_ & H & _) | (l & a & cause & _ & H & _)]];
      [exact H | discriminate H | discriminate H].
  - destruct (deposit_rejected_inversion ∅ (Samples.options (Some "0xFriend"))
                Samples.wallet_without_account
                (Error "Deposit failed: unknown account #0") eq_refl)
      as [(H & _) | [(H & _) | (l & a & cause & Hres & He & Hkind)]];
      [discriminate H | discriminate H |].
    exists l, a, cause. split; [exact Hres|]. split; [exact He|].
    destruct Hkind as [(_ & Hcalls) | [(Hp & _) | (Hp & _)]];
      [exact Hcalls | | ].
    + inversion Hres; subst; discriminate Hp.
    + inversion Hres; subst; discriminate Hp.
Defined.
End OnEthersClaims.
